(** * Mini app controller (miniapp/app.js): model and properties

    Part I embeds the controller: the pure helpers ([detectPlatform],
    [formatAmount], [resolveI18n], [readInitData]), the renderers over a
    record model of the page, the loaders and [bootstrap] in a state and
    exception monad, and the click handler of the pay button split at its
    one [await].  Part II states and proves the properties. *)

From Stdlib Require Import Bool Ascii String List ZArith QArith Lia.
From Stdlib Require Import DecimalString DecimalPos DecimalN.
Import ListNotations.

Open Scope Z_scope.
Open Scope list_scope.
Open Scope string_scope.

(* ===================================================================== *)
(** * Part I: the model *)
(* ===================================================================== *)

(** ** JavaScript strings and truthiness *)

Module Js.

(** [String.prototype.toLowerCase] on the ASCII range; bytes above 127 are
    left alone (no pattern of [detectPlatform] contains a letter that a
    non-ASCII character lowers to). *)
Definition lower_ascii (c : ascii) : ascii :=
  let n := nat_of_ascii c in
  if (Nat.leb 65 n && Nat.leb n 90)%bool then ascii_of_nat (n + 32) else c.

Fixpoint toLowerCase (s : string) : string :=
  match s with
  | EmptyString => EmptyString
  | String c rest => String (lower_ascii c) (toLowerCase rest)
  end.

(** [/pat/.test(s)] for a pattern without metacharacters: [pat] occurs in
    [s] as a contiguous substring. *)
Fixpoint includes (pat s : string) : bool :=
  (String.prefix pat s
   || match s with
      | EmptyString => false
      | String _ rest => includes pat rest
      end)%bool.

(** [/p1|p2|.../.test(s)]. *)
Definition test_any (pats : list string) (s : string) : bool :=
  existsb (fun p => includes p s) pats.

(** A string is truthy when it is not empty. *)
Definition truthy_string (s : string) : bool :=
  match s with EmptyString => false | _ => true end.

(** An optional string field: [None] is [undefined] or [null]. *)
Definition truthy (o : option string) : bool :=
  match o with Some s => truthy_string s | None => false end.

(** [a || b] on optional strings. *)
Definition or_else (a b : option string) : option string :=
  if truthy a then a else b.

(** [a || 'literal']. *)
Definition or_default (a : option string) (d : string) : string :=
  match a with
  | Some s => if truthy_string s then s else d
  | None => d
  end.

(** Interpolation [`${v}`] of an optional string field that the code has
    just tested truthy, as at every use below: [None], which stands for
    [null] as well as [undefined], is then never printed. *)
Definition interpolate (o : option string) : string :=
  match o with Some s => s | None => "undefined" end.

(** [parts.join(sep)]. *)
Fixpoint join (sep : string) (parts : list string) : string :=
  match parts with
  | [] => ""
  | [p] => p
  | p :: rest => p ++ sep ++ join sep rest
  end.

(** Decimal numeral of a natural number, as [String(n)] prints it. *)
Definition dec (n : Z) : string :=
  NilZero.string_of_uint (N.to_uint (Z.to_N n)).


(** [String(n)] for an integer [n] below [2^53] in size, as a response
    status is. *)
Definition string_of_int (n : Z) : string :=
  if (n <? 0)%Z then "-" ++ dec (- n) else dec n.

(** The values a JSON field can hold, as far as the controller tells them
    apart.  Numbers are written as integer numerals: every number the
    service sends is a count of minor units; [Number n] is the double
    nearest to [n]. *)
Inductive value : Type :=
| Undefined
| Null
| Boolean (b : bool)
| Number (n : Z)
| Text (s : string).


End Js.

(** ** JavaScript numbers

    A number is an IEEE 754 double.  The controller only ever holds the
    doubles of integer numerals and their quotients by 100, so a double is
    kept as its sign-free value [m * 2^e], and rounding, division,
    [toFixed] and [String] are computed on it as ECMA-262 defines them. *)

Module Num.

Local Open Scope Z_scope.

(** A double that is not negative: [Finite m e] is [m * 2^e]. *)
Inductive double : Type :=
| Finite (m e : Z)
| Infinity.

(** [floor (log2 (a / b))] for positive [a] and [b]. *)
Definition floor_log2 (a b : Z) : Z :=
  let d := Z.log2 a - Z.log2 b in
  if (if 0 <=? d then b * 2 ^ d <=? a else b <=? a * 2 ^ (- d))
  then d else d - 1.

(** The integer nearest to [a / b], the even one of two at equal
    distance. *)
Definition nearest_even (a b : Z) : Z :=
  let q := a / b in
  match 2 * (a mod b) ?= b with
  | Lt => q
  | Gt => q + 1
  | Eq => if Z.even q then q else q + 1
  end.

(** The double nearest to [a / b] ([a >= 0], [b > 0]), ties to the even
    significand: 53 bits from [2^-1022] up, fewer below, infinity from
    [2^1024 - 2^970] up. *)
Definition round (a b : Z) : double :=
  if a =? 0 then Finite 0 0
  else
    let e := Z.max (floor_log2 a b) (-1022) in
    let m :=
      if e <=? 52 then nearest_even (a * 2 ^ (52 - e)) b
      else nearest_even a (b * 2 ^ (e - 52)) in
    if (1024 <=? e) || ((e =? 1023) && (m =? 2 ^ 53))
    then Infinity else Finite m (e - 52).

(** The double of an integer numeral. *)
Definition of_Z (n : Z) : double := round n 1.

(** [x / b] for a positive integer [b]. *)
Definition div (x : double) (b : Z) : double :=
  match x with
  | Finite m e =>
      if 0 <=? e then round (m * 2 ^ e) b else round m (2 ^ (- e) * b)
  | Infinity => Infinity
  end.

(** [x >= bound] for an integer [bound]. *)
Definition at_least (x : double) (bound : Z) : bool :=
  match x with
  | Finite m e =>
      if 0 <=? e then bound <=? m * 2 ^ e else bound * 2 ^ (- e) <=? m
  | Infinity => true
  end.

(** The integer [n] for which [n / 100] is nearest to [x], the larger
    one of two at equal distance. *)
Definition hundredths (x : double) : Z :=
  match x with
  | Finite m e =>
      if 0 <=? e then 100 * (m * 2 ^ e)
      else (200 * m + 2 ^ (- e)) / (2 * 2 ^ (- e))
  | Infinity => 0
  end.

(** Two integers stand for the same double. *)
Definition same_double (c v : Z) : bool :=
  match of_Z c, of_Z v with
  | Finite m1 e1, Finite m2 e2 =>
      let e := Z.min e1 e2 in
      m1 * 2 ^ (e1 - e) =? m2 * 2 ^ (e2 - e)
  | Infinity, Infinity => true
  | _, _ => false
  end.

(** The decimal with the fewest significant digits, [k] or more, that
    reads back as the double of value [v], whose numeral has [p] digits;
    of several with that many digits the nearest to [v]. *)
Fixpoint shortest (fuel : nat) (k p v : Z) : Z :=
  match fuel with
  | O => v
  | S fuel' =>
      let t := 10 ^ (p - k) in
      let c1 := v / t * t in
      let c2 := c1 + t in
      match same_double c1 v, same_double c2 v with
      | true, true =>
          match v - c1 ?= c2 - v with
          | Lt => c1
          | Gt => c2
          | Eq => if Z.even (v / t) then c1 else c2
          end
      | true, false => c1
      | false, true => c2
      | false, false => shortest fuel' (k + 1) p v
      end
  end.

(** A numeral without its trailing zeros. *)
Fixpoint strip_zeros (s : string) : string :=
  match s with
  | EmptyString => EmptyString
  | String c rest =>
      match strip_zeros rest with
      | EmptyString => if Ascii.eqb c "0" then EmptyString else String c ""
      | rest' => String c rest'
      end
  end.

(** [Number::toString] of the integral double of value [v >= 10^21]:
    the shortest digits, a point after the first when there are more,
    and the exponent. *)
Definition exponential (v : Z) : string :=
  let p := Z.of_nat (String.length (Js.dec v)) in
  let c := shortest 17 1 p v in
  let digits := Js.dec c in
  match strip_zeros digits with
  | String d EmptyString =>
      String d "e+" ++ Js.dec (Z.of_nat (String.length digits) - 1)
  | String d rest =>
      String d ("." ++ rest) ++ "e+"
        ++ Js.dec (Z.of_nat (String.length digits) - 1)
  | EmptyString => digits
  end.

(** The integer a double at or above [2^53] is. *)
Definition to_Z (x : double) : Z :=
  match x with
  | Finite m e => if 0 <=? e then m * 2 ^ e else m / 2 ^ (- e)
  | Infinity => 0
  end.

(** [String(x)] for the double of an integer, [x >= 0]. *)
Definition to_string (x : double) : string :=
  match x with
  | Infinity => "Infinity"
  | Finite _ _ =>
      if at_least x (10 ^ 21) then exponential (to_Z x) else Js.dec (to_Z x)
  end.

(** [String(n)] for the number an integer numeral [n] denotes. *)
Definition string_of_number (n : Z) : string :=
  (if n <? 0 then "-" else "") ++ to_string (of_Z (Z.abs n)).

(** Interpolation [`${v}`] of a value. *)
Definition template (v : Js.value) : string :=
  match v with
  | Js.Undefined => "undefined"
  | Js.Null => "null"
  | Js.Boolean true => "true"
  | Js.Boolean false => "false"
  | Js.Number n => string_of_number n
  | Js.Text s => s
  end.

End Num.

(** ** PlatformDetector *)

Module Platform.

Definition ios_patterns : list string := ["iphone"; "ipad"; "ipod"].
Definition android_patterns : list string := ["android"].
Definition windows_patterns : list string := ["windows"].
Definition mac_patterns : list string := ["macintosh"; "mac os x"].
Definition linux_patterns : list string := ["linux"].
Definition tv_patterns : list string := ["tv"].

(** [detectPlatform], with [navigator.userAgent] as its argument. *)
Definition detectPlatform (userAgent : string) : string :=
  let ua := Js.toLowerCase userAgent in
  if Js.test_any ios_patterns ua then "ios"
  else if Js.test_any android_patterns ua then "android"
  else if Js.test_any windows_patterns ua then "windows"
  else if Js.test_any mac_patterns ua then "mac"
  else if Js.test_any linux_patterns ua then "linux"
  else if Js.test_any tv_patterns ua then "androidTV"
  else "generic".

(** The closed set of platform tags. *)
Definition platform_tags : list string :=
  ["ios"; "android"; "windows"; "mac"; "linux"; "androidTV"; "generic"].

(** The priority table of the specification: tag and patterns, highest
    priority first. *)
Definition priority_table : list (string * list string) :=
  [ ("ios", ios_patterns); ("android", android_patterns);
    ("windows", windows_patterns); ("mac", mac_patterns);
    ("linux", linux_patterns); ("androidTV", tv_patterns) ].

(** Detection as the specification words it: the first row of the table
    with a matching pattern wins, and no match yields [generic]. *)
Definition detect_by_priority (userAgent : string) : string :=
  match find (fun row => Js.test_any (snd row) (Js.toLowerCase userAgent))
             priority_table with
  | Some row => fst row
  | None => "generic"
  end.

End Platform.

(** ** Monetary formatting *)

Module Money.

(** The two literals of the source.  The stored file holds them as the
    rouble sign (U+20BD) and the em dash (U+2014) read through a cp1252
    round trip; the model keeps the bytes of the file. *)
Definition DEFAULT_CURRENCY : string := "â‚½".
Definition PLACEHOLDER : string := "â€”".

Definition digit (d : Z) : ascii := ascii_of_nat (48 + Z.to_nat d).

Definition two_digits (f : Z) : string :=
  String (digit (f / 10)) (String (digit (f mod 10)) "").

(** [(kopeks / 100).toFixed(2)]: the double of [kopeks] is divided by
    100 as doubles are; below [10^21] the quotient is printed as the
    nearest count of hundredths (the larger of two equally near), from
    [10^21] on as [String] prints it. *)
Definition toFixed2 (kopeks : Z) : string :=
  let x := Num.div (Num.of_Z (Z.abs kopeks)) 100 in
  (if (kopeks <? 0)%Z then "-" else "")
    ++ match x with
       | Num.Infinity => "Infinity"
       | Num.Finite _ _ =>
           if Num.at_least x (10 ^ 21) then Num.exponential (Num.to_Z x)
           else
             let n := Num.hundredths x in
             Js.dec (n / 100) ++ "." ++ two_digits (n mod 100)
       end.

(** [formatAmount(kopeks, currency = DEFAULT_CURRENCY)]; [None] is an
    omitted (or [undefined]) second argument. *)
Definition formatAmount (kopeks : Js.value) (currency : option string)
  : string :=
  let currency :=
    match currency with Some c => c | None => DEFAULT_CURRENCY end in
  match kopeks with
  | Js.Number k => toFixed2 k ++ " " ++ currency
  | _ => PLACEHOLDER
  end.


End Money.

(** ** I18nResolver *)

Module I18n.

(** What a localisable field of the config can hold: nothing ([null] or
    [undefined]), a plain string, or an object from language tag to string,
    its own properties listed in enumeration order. *)
Inductive entity : Type :=
| Absent
| Plain (s : string)
| Mapping (entries : list (string * string)).

(** Where the active language comes from:
    [tg?.initDataUnsafe?.user?.language_code] and [navigator.language]. *)
Record Locale : Type := {
  host_language : option string;
  navigator_language : option string
}.

(** [host || navigator.language?.slice(0, 2) || 'en']. *)
Definition active_language (loc : Locale) : string :=
  Js.or_default
    (Js.or_else (host_language loc)
                (option_map (substring 0 2) (navigator_language loc)))
    "en".

(** [entity[key]]: the own property [key], if there is one. *)
Fixpoint get (key : string) (entries : list (string * string))
  : option string :=
  match entries with
  | [] => None
  | (k, v) :: rest => if String.eqb k key then Some v else get key rest
  end.

(** [Object.values(entity)[0]]. *)
Definition first_value (entries : list (string * string)) : Js.value :=
  match entries with
  | [] => Js.Undefined
  | (_, v) :: _ => Js.Text v
  end.

Definition resolveI18n (loc : Locale) (e : entity) : Js.value :=
  match e with
  | Absent => Js.Null
  | Plain s => if Js.truthy_string s then Js.Text s else Js.Null
  | Mapping entries =>
      let lang := active_language loc in
      match get lang entries with
      | Some v => if Js.truthy_string v then Js.Text v else
          match get "en" entries with
          | Some v' =>
              if Js.truthy_string v' then Js.Text v' else first_value entries
          | None => first_value entries
          end
      | None =>
          match get "en" entries with
          | Some v' =>
              if Js.truthy_string v' then Js.Text v' else first_value entries
          | None => first_value entries
          end
      end
  end.

(** [resolveI18n(x) || fallback], as every caller uses the result. *)
Definition text_or (v : Js.value) (fallback : string) : string :=
  match v with
  | Js.Text s => if Js.truthy_string s then s else fallback
  | _ => fallback
  end.

(** The fallback chain in the words of the specification. *)
Definition resolve_as_specified (loc : Locale) (e : entity) : Js.value :=
  match e with
  | Absent => Js.Null
  | Plain s => Js.Text s
  | Mapping entries =>
      match get (active_language loc) entries with
      | Some v => Js.Text v
      | None =>
          match get "en" entries with
          | Some v => Js.Text v
          | None =>
              match entries with
              | [] => Js.Null
              | (_, v) :: _ => Js.Text v
              end
          end
      end
  end.

End I18n.

(** ** Data exchanged with the service and the config document *)

Module Data.

Record User : Type := {
  display_name : option string;
  subscription_status : option string;
  has_active_subscription : bool;
  (** [None] when the field is missing: [classList.toggle] then flips. *)
  subscription_missing : option bool;
  expires_at : option string;
  traffic_limit_label : option string;
  status_label : option string;
  status : option string
}.

Record Device : Type := {
  platform : option string;
  device_model : option string;
  app_version : option string
}.

Record Transaction : Type := {
  description : option string;
  type : Js.value;
  created_at : option string;
  amount_kopeks : Js.value;
  is_completed : bool
}.

(** The body of [/miniapp/subscription]. *)
Record Snapshot : Type := {
  user : option User;
  balance_kopeks : Js.value;
  balance_currency : option string;
  subscription_missing_reason : option string;
  subscription_url : option string;
  happ_link : option string;
  happ_crypto_link : option string;
  links : option (list string);
  connected_devices : option (list Device);
  connected_devices_count : option Z;
  transactions : option (list Transaction)
}.

Record PayOption : Type := {
  option_id : string;
  option_title : option string
}.

Record PaymentMethod : Type := {
  id : string;
  name : option string;
  icon : option string;
  requires_amount : bool;
  min_amount_kopeks : option Z;
  amount_step_kopeks : option Z;
  currency : Js.value;
  options : list PayOption
}.

(** The body of [/miniapp/payments/methods]. *)
Record MethodsDoc : Type := { methods : option (list PaymentMethod) }.

(** The body of [/miniapp/payments/create]. *)
Record PaymentResponse : Type := { payment_url : option string }.

(** The request body of [/miniapp/payments/create]; [None] is a member
    that is [undefined] and so left out by [JSON.stringify]. *)
Record PaymentRequest : Type := {
  req_initData : string;
  req_method : string;
  req_amountRubles : option Q;
  req_option : option string
}.

Record GuideButton : Type := {
  buttonLink : string;
  buttonText : I18n.entity
}.

Record GuideStep : Type := {
  step_description : I18n.entity;
  step_buttons : list GuideButton
}.

Record GuideEntry : Type := {
  installationStep : option GuideStep;
  addSubscriptionStep : option GuideStep;
  connectAndUseStep : option GuideStep
}.

Record Branding : Type := {
  brand_name : option string;
  brand_description : option string;
  supportUrl : option string;
  logoUrl : option string
}.

Record AppConfig : Type := {
  branding : option Branding;
  platforms : list (string * list GuideEntry)
}.

(** [{}]. *)
Definition empty_config : AppConfig :=
  {| branding := None; platforms := [] |}.

(** [app-config.json] once parsed: [{ config: ... }]. *)
Record ConfigDoc : Type := { config : option AppConfig }.

End Data.

(** ** The page

    The elements behind [selectors], as a record.  A card and the list
    element inside it are one [Card]; markup built through [innerHTML] is
    kept as the values interpolated into it. *)

Module Page.

Record Card (A : Type) : Type := {
  hidden : bool;
  items : list A
}.
Arguments hidden {A} _.
Arguments items {A} _.

Record Badge : Type := {
  badge_text : string;
  badge_success : bool;
  badge_danger : bool
}.

Record Highlight : Type := {
  hl_label : string;
  hl_value : string
}.

(** [subscriptionTitle], [subscriptionMeta], [statusBadge] and
    [highlightGrid]. *)
Record Status : Type := {
  subscriptionTitle : string;
  subscriptionMeta : string;
  statusBadge : Badge;
  highlightGrid : list Highlight
}.

Record TxItem : Type := {
  tx_title : string;
  tx_date : string;
  tx_completed : bool;
  tx_amount : string
}.

Inductive GuideNode : Type :=
| StepBlock (title text : string) (buttons : list (string * string))
| UrlHint (url : string).

Record PayButton : Type := {
  disabled : bool;
  label : string
}.

(** An [<input type="number">].  Its [min], [step] and [value] are strings
    in the DOM; a number assigned to them is stored as its numeral and the
    value is sanitised to a valid number or the empty string, so each is
    kept as the number it denotes, [None] being the empty string. *)
Record NumberInput : Type := {
  input_id : string;
  input_caption : string;
  input_min : option Q;
  input_step : option Q;
  input_value : option Q
}.

Record Select : Type := {
  select_id : string;
  select_options : list (string * string);
  select_value : option string
}.

(** One [div.payment-method]; [widget_method] is the method its click
    handler closes over. *)
Record PaymentWidget : Type := {
  widget_method : Data.PaymentMethod;
  widget_icon : string;
  widget_name : string;
  widget_meta : string;
  pay_button : PayButton;
  amount_field : option NumberInput;
  option_field : option Select
}.

Record Brand : Type := {
  brandLogo_image : option string;
  brandLogo_text : string;
  brandTitle : string;
  supportLink : string;
  supportCopy : string
}.

Record Theme : Type := {
  data_theme : string;
  backgroundColor : option string
}.

Record t : Type := {
  brand : Brand;
  theme : Theme;
  status : Status;
  actions : Card string;
  payments : Card PaymentWidget;
  devices : Card string;
  transactions : Card TxItem;
  platformGuide : Card GuideNode
}.

Definition set_brand (b : Brand) (p : t) : t :=
  {| brand := b; theme := theme p; status := status p;
     actions := actions p; payments := payments p; devices := devices p;
     transactions := transactions p; platformGuide := platformGuide p |}.

Definition set_theme (th : Theme) (p : t) : t :=
  {| brand := brand p; theme := th; status := status p;
     actions := actions p; payments := payments p; devices := devices p;
     transactions := transactions p; platformGuide := platformGuide p |}.

Definition set_status (s : Status) (p : t) : t :=
  {| brand := brand p; theme := theme p; status := s;
     actions := actions p; payments := payments p; devices := devices p;
     transactions := transactions p; platformGuide := platformGuide p |}.

Definition set_actions (c : Card string) (p : t) : t :=
  {| brand := brand p; theme := theme p; status := status p;
     actions := c; payments := payments p; devices := devices p;
     transactions := transactions p; platformGuide := platformGuide p |}.

Definition set_payments (c : Card PaymentWidget) (p : t) : t :=
  {| brand := brand p; theme := theme p; status := status p;
     actions := actions p; payments := c; devices := devices p;
     transactions := transactions p; platformGuide := platformGuide p |}.

Definition set_devices (c : Card string) (p : t) : t :=
  {| brand := brand p; theme := theme p; status := status p;
     actions := actions p; payments := payments p; devices := c;
     transactions := transactions p; platformGuide := platformGuide p |}.

Definition set_transactions (c : Card TxItem) (p : t) : t :=
  {| brand := brand p; theme := theme p; status := status p;
     actions := actions p; payments := payments p; devices := devices p;
     transactions := c; platformGuide := platformGuide p |}.

Definition set_platformGuide (c : Card GuideNode) (p : t) : t :=
  {| brand := brand p; theme := theme p; status := status p;
     actions := actions p; payments := payments p; devices := devices p;
     transactions := transactions p; platformGuide := c |}.

(** [card.hidden = h], the list inside left as it is. *)
Definition hide {A : Type} (h : bool) (c : Card A) : Card A :=
  {| hidden := h; items := items c |}.

(** [list.innerHTML = ''] then [card.hidden = true]. *)
Definition emptied {A : Type} : Card A :=
  {| hidden := true; items := [] |}.

(** [list.innerHTML = ''], [card.hidden = false], then one child appended
    per element. *)
Definition filled {A : Type} (l : list A) : Card A :=
  {| hidden := false; items := l |}.

(** A section is shown with [l] as its items, or hidden with no item when
    [l] is empty: the shape shared by the list renderers. *)
Definition card_of {A : Type} (l : list A) : Card A :=
  match l with
  | [] => emptied
  | _ => filled l
  end.

End Page.

(** ** ViewRenderer *)

Module Render.

Import Data Page.

(** [formatDate]: [intl] stands for
    [new Intl.DateTimeFormat(...).format(new Date(value))], [None] when it
    throws. *)
Definition formatDate (intl : string -> option string)
  (value : option string) : string :=
  match value with
  | Some v =>
      if Js.truthy_string v
      then match intl v with Some s => s | None => v end
      else Money.PLACEHOLDER
  | None => Money.PLACEHOLDER
  end.

(** [user?.field]. *)
Definition of_user {A : Type} (f : User -> option A) (u : option User)
  : option A :=
  match u with Some u => f u | None => None end.

(** [classList.toggle(cls, force)]: with [force] undefined the class is
    flipped. *)
Definition toggle (present : bool) (force : option bool) : bool :=
  match force with Some b => b | None => negb present end.

Definition meta_parts (intl : string -> option string) (s : Snapshot)
  : list string :=
  (if Js.truthy (subscription_missing_reason s)
   then [Js.interpolate (subscription_missing_reason s)] else [])
  ++ (if Js.truthy (of_user expires_at (user s))
      then ["Expires " ++ formatDate intl (of_user expires_at (user s))]
      else []).

Definition highlights (s : Snapshot) : list Highlight :=
  [ {| hl_label := "Balance";
       hl_value :=
         Money.formatAmount (balance_kopeks s)
           (Some (Js.or_default (balance_currency s)
                                Money.DEFAULT_CURRENCY)) |};
    {| hl_label := "Traffic";
       hl_value :=
         Js.or_default (of_user traffic_limit_label (user s)) "Unlimited" |};
    {| hl_label := "Devices";
       hl_value :=
         match connected_devices_count s with
         | Some n => if (n =? 0)%Z then "0" else Num.string_of_number n
         | None => "0"
         end |};
    {| hl_label := "Status";
       hl_value :=
         Js.or_default
           (Js.or_else (of_user status_label (user s))
                       (of_user Data.status (user s)))
           Money.PLACEHOLDER |} ].

Definition renderStatusCard (intl : string -> option string)
  (s : Snapshot) (p : Page.t) : Page.t :=
  let old := statusBadge (status p) in
  set_status
    {| subscriptionTitle :=
         Js.or_default (of_user display_name (user s)) "Subscription";
       subscriptionMeta :=
         (let joined := Js.join " Â· " (meta_parts intl s) in
          if Js.truthy_string joined then joined
          else "Active subscription overview.");
       statusBadge :=
         {| badge_text :=
              Js.or_default (of_user subscription_status (user s)) "Unknown";
            badge_success :=
              match user s with
              | Some u => has_active_subscription u
              | None => false
              end;
            badge_danger :=
              toggle (badge_danger old)
                     (of_user subscription_missing (user s)) |};
       highlightGrid := highlights s |}
    p.

(** [set.add(x)] on a [Set] kept in insertion order. *)
Definition set_add (x : string) (s : list string) : list string :=
  if existsb (String.eqb x) s then s else (s ++ [x])%list.

(** [if (field) links.add(field)]. *)
Definition add_if_truthy (field : option string) (s : list string)
  : list string :=
  match field with
  | Some x => if Js.truthy_string x then set_add x s else s
  | None => s
  end.

(** The [Set] that [renderActions] builds. *)
Definition link_set (s : Snapshot) : list string :=
  fold_left (fun acc l => set_add l acc)
    (match links s with Some l => l | None => [] end)
    (add_if_truthy (happ_crypto_link s)
       (add_if_truthy (happ_link s)
          (add_if_truthy (subscription_url s) []))).

Definition renderActions (s : Snapshot) (p : Page.t) : Page.t :=
  set_actions (card_of (link_set s)) p.

(** [list.filter(Boolean)] on optional strings. *)
Fixpoint filter_truthy (l : list (option string)) : list string :=
  match l with
  | [] => []
  | Some x :: rest =>
      if Js.truthy_string x then x :: filter_truthy rest
      else filter_truthy rest
  | None :: rest => filter_truthy rest
  end.

Definition device_label (d : Device) : string :=
  let label :=
    Js.join " Â· "
      (filter_truthy [platform d; device_model d; app_version d]) in
  if Js.truthy_string label then label else "Device".

Definition renderDevices (s : Snapshot) (p : Page.t) : Page.t :=
  let devices :=
    match connected_devices s with Some l => l | None => [] end in
  set_devices (card_of (map device_label devices)) p.

Definition transaction_item (intl : string -> option string)
  (tx : Transaction) : TxItem :=
  {| tx_title :=
       (if Js.truthy (description tx) then Js.interpolate (description tx)
        else Num.template (type tx));
     tx_date := formatDate intl (created_at tx);
     tx_completed := is_completed tx;
     tx_amount := Money.formatAmount (amount_kopeks tx) None |}.

Definition renderTransactions (intl : string -> option string)
  (s : Snapshot) (p : Page.t) : Page.t :=
  let transactions :=
    firstn 5 (match Data.transactions s with Some l => l | None => [] end)
  in
  set_transactions (card_of (map (transaction_item intl) transactions)) p.

(** [config?.platforms?.[tag]]. *)
Fixpoint platform_steps (tag : string)
  (table : list (string * list GuideEntry)) : option (list GuideEntry) :=
  match table with
  | [] => None
  | (k, v) :: rest =>
      if String.eqb k tag then Some v else platform_steps tag rest
  end.

(** [step?.description]. *)
Definition description_of (st : option GuideStep) : I18n.entity :=
  match st with Some st => step_description st | None => I18n.Absent end.

Definition guide_anchor (loc : I18n.Locale) (b : GuideButton)
  : string * string :=
  (buttonLink b, I18n.text_or (I18n.resolveI18n loc (buttonText b)) "Open").

Definition guide_block (loc : I18n.Locale) (title : string)
  (desc : I18n.entity) (buttons : list GuideButton) : GuideNode :=
  StepBlock title (I18n.text_or (I18n.resolveI18n loc desc) "")
            (map (guide_anchor loc) buttons).

Definition renderPlatformGuide (loc : I18n.Locale)
  (config : option AppConfig) (tag : string) (s : Snapshot) (p : Page.t)
  : Page.t :=
  match match config with
        | Some c => platform_steps tag (platforms c)
        | None => None
        end with
  | Some (client :: _) =>
      set_platformGuide
        (filled
           ([ guide_block loc "Install the app"
                (description_of (installationStep client))
                (match installationStep client with
                 | Some st => step_buttons st
                 | None => []
                 end);
              guide_block loc "Add subscription"
                (description_of (addSubscriptionStep client)) [];
              guide_block loc "Connect & browse"
                (description_of (connectAndUseStep client)) [] ]
            ++ match subscription_url s with
               | Some u => if Js.truthy_string u then [UrlHint u] else []
               | None => []
               end))
        p
  | _ => set_platformGuide emptied p
  end.

(** A number field that is truthy: present and not zero. *)
Definition truthy_number (o : option Z) : bool :=
  match o with Some n => negb (n =? 0)%Z | None => false end.

(** [field ? field / 100 : 1]. *)
Definition major_units_or_one (o : option Z) : Q :=
  match o with
  | Some n => if negb (n =? 0)%Z then inject_Z n / 100 else 1
  | None => 1
  end.

(** The amount input of a method that asks for an amount.  [input.min] is
    read back as a string, so [input.min || 100] takes the right operand
    only if that string is empty. *)
Definition amount_input (m : PaymentMethod) : NumberInput :=
  let min := Some (major_units_or_one (min_amount_kopeks m)) in
  {| input_id := "amount-" ++ id m;
     input_caption := "Amount, " ++ Num.template (currency m);
     input_min := min;
     input_step := Some (major_units_or_one (amount_step_kopeks m));
     input_value := match min with Some q => Some q | None => Some 100%Q end
  |}.

(** The option list of a method with options; the first option starts
    selected. *)
Definition option_select (m : PaymentMethod) : Select :=
  {| select_id := "option-" ++ id m;
     select_options :=
       map (fun o => (option_id o,
                      Js.or_default (option_title o) (option_id o)))
           (options m);
     select_value :=
       match options m with o :: _ => Some (option_id o) | [] => None end
  |}.

Definition payment_widget (m : PaymentMethod) : PaymentWidget :=
  {| widget_method := m;
     widget_icon := Js.or_default (icon m) "ðŸ’³";
     widget_name := Js.or_default (name m) (id m);
     widget_meta :=
       if requires_amount m then "Enter an amount"
       else "Fixed amount or redirect";
     pay_button := {| disabled := false; label := "Pay" |};
     amount_field :=
       if requires_amount m then Some (amount_input m) else None;
     option_field :=
       match options m with
       | [] => None
       | _ => Some (option_select m)
       end |}.

Definition renderPayments (methods : list PaymentMethod) (p : Page.t)
  : Page.t :=
  set_payments (card_of (map payment_widget methods)) p.

End Render.

(** ** The world the controller runs in *)

Module World.

Import Data.

(** A thrown [Error]: only [name] and [message] are ever read. *)
Record Exn : Type := {
  exn_name : string;
  message : string
}.

(** The network calls the controller can issue. *)
Inductive Request : Type :=
| GetConfig
| PostSubscription (initData : string)
| PostMethods (initData : string)
| PostCreate (payload : PaymentRequest).

Definition url_of (r : Request) : string :=
  match r with
  | GetConfig => "app-config.json"
  | PostSubscription _ => "/miniapp/subscription"
  | PostMethods _ => "/miniapp/payments/methods"
  | PostCreate _ => "/miniapp/payments/create"
  end.

(** What [response.json()] resolves to: [null], or a value whose members
    can be read. *)
Inductive Reply (A : Type) : Type :=
| JsonNull
| JsonObject (a : A).
Arguments JsonNull {A}.
Arguments JsonObject {A} _.

(** How one [fetch] behind [fetchJson] ends. *)
Inductive Fetch (A : Type) : Type :=
| NetworkError (e : Exn)
| HttpError (status : Z) (body : string)
| BadJson (e : Exn)
| Json (r : Reply A).
Arguments NetworkError {A} _.
Arguments HttpError {A} _ _.
Arguments BadJson {A} _.
Arguments Json {A} _.

(** How the fetch of [app-config.json] ends: the fetch or the read of the
    body rejects, or there is a text, which [safeJsonParse] turns into a
    document or into [null] ([None]). *)
Inductive ConfigFetch : Type :=
| ConfigRejected (e : Exn)
| ConfigBody (doc : option ConfigDoc).

(** [window.Telegram?.WebApp]. *)
Record TgWebApp : Type := {
  tg_initData : option string;
  tg_query_id : option string;
  tg_language_code : option string;
  tg_colorScheme : option string;
  (** [None]: no [themeParams]; [Some bg]: its [bg_color]. *)
  tg_themeParams : option (option string)
}.

(** Everything the controller reads from outside. *)
Record Env : Type := {
  tg : option TgWebApp;
  query_initData : option string;
  userAgent : string;
  language : option string;
  intl : string -> option string;
  config_fetch : ConfigFetch;
  subscription_fetch : string -> Fetch Snapshot;
  methods_fetch : string -> Fetch MethodsDoc;
  create_fetch : PaymentRequest -> Fetch PaymentResponse
}.

Definition locale (env : Env) : I18n.Locale :=
  {| I18n.host_language :=
       match tg env with Some t => tg_language_code t | None => None end;
     I18n.navigator_language := language env |}.

Record AppState : Type := {
  initData : string;
  subscription : option Snapshot;
  config : option AppConfig;
  paymentMethods : list PaymentMethod;
  platform : string
}.

(** [appState] as the script declares it. *)
Definition initial_appState : AppState :=
  {| initData := ""; subscription := None; config := None;
     paymentMethods := []; platform := "generic" |}.

(** The page, [appState], and what has left the controller so far: the
    requests issued, the [alert]s shown and the windows opened, oldest
    first. *)
Record t : Type := {
  page : Page.t;
  appState : AppState;
  requests : list Request;
  alerts : list string;
  opened : list string
}.

Definition set_page (p : Page.t) (w : t) : t :=
  {| page := p; appState := appState w; requests := requests w;
     alerts := alerts w; opened := opened w |}.

Definition set_appState (a : AppState) (w : t) : t :=
  {| page := page w; appState := a; requests := requests w;
     alerts := alerts w; opened := opened w |}.

Definition log (r : Request) (w : t) : t :=
  {| page := page w; appState := appState w;
     requests := (requests w ++ [r])%list;
     alerts := alerts w; opened := opened w |}.

Definition alert (msg : string) (w : t) : t :=
  {| page := page w; appState := appState w; requests := requests w;
     alerts := (alerts w ++ [msg])%list; opened := opened w |}.

Definition window_open (url : string) (w : t) : t :=
  {| page := page w; appState := appState w; requests := requests w;
     alerts := alerts w; opened := (opened w ++ [url])%list |}.

(** The world before [bootstrap] runs, over the page as the markup
    gives it. *)
Definition start (p : Page.t) : t :=
  {| page := p; appState := initial_appState; requests := [];
     alerts := []; opened := [] |}.

(** *** The monad: state and exceptions *)

Inductive Result (A : Type) : Type :=
| Returned (a : A)
| Thrown (e : Exn).
Arguments Returned {A} _.
Arguments Thrown {A} _.

Definition M (A : Type) : Type := t -> Result A * t.

Definition ret {A : Type} (a : A) : M A := fun w => (Returned a, w).

Definition throw {A : Type} (e : Exn) : M A := fun w => (Thrown e, w).

Definition bind {A B : Type} (c : M A) (k : A -> M B) : M B :=
  fun w =>
    match c w with
    | (Returned a, w') => k a w'
    | (Thrown e, w') => (Thrown e, w')
    end.

(** [try { body } catch (error) { handler }]. *)
Definition try_catch {A : Type} (body : M A) (handler : Exn -> M A) : M A :=
  fun w =>
    match body w with
    | (Returned a, w') => (Returned a, w')
    | (Thrown e, w') => handler e w'
    end.

(** A statement that only changes the world. *)
Definition modify (f : t -> t) : M unit := fun w => (Returned tt, f w).

Definition modify_page (f : Page.t -> Page.t) : M unit :=
  modify (fun w => set_page (f (page w)) w).

Definition get_appState : M AppState := fun w => (Returned (appState w), w).

End World.

Notation "x <- c1 ;; c2" := (World.bind c1 (fun x => c2))
  (at level 61, c1 at next level, right associativity).
Notation "c1 ;; c2" := (World.bind c1 (fun _ => c2))
  (at level 61, right associativity).

(** ** Loaders, BootstrapController and PaymentWorkflow *)

Module App.

Import Data Page World.

(** [readInitData]: the conditional binds weaker than [||], so the host
    token is taken when the host reports a token or a query id. *)
Definition readInitData (env : Env) : string :=
  let fromTg :=
    match tg env with
    | Some t =>
        if (Js.truthy (tg_initData t) || Js.truthy (tg_query_id t))%bool
        then tg_initData t
        else Some ""
    | None => Some ""
    end in
  let fromQuery := Js.or_default (query_initData env) "" in
  Js.or_default fromTg fromQuery.

Definition setTheme (env : Env) (theme : option string) (p : Page.t)
  : Page.t :=
  let nextTheme :=
    Js.or_default theme
      (match tg env with
       | Some t =>
           match tg_colorScheme t with
           | Some c => if String.eqb c "light" then "light" else "dark"
           | None => "dark"
           end
       | None => "dark"
       end) in
  set_theme
    {| data_theme := nextTheme;
       backgroundColor :=
         match tg env with
         | Some t =>
             match tg_themeParams t with
             | Some (Some bg) =>
                 if Js.truthy_string bg then Some ("#" ++ bg)
                 else backgroundColor (Page.theme p)
             | _ => backgroundColor (Page.theme p)
             end
         | None => backgroundColor (Page.theme p)
         end |}
    p.

(** What [fetchJson] makes of the way its fetch ended. *)
Definition fetch_result {A : Type} (outcome : Fetch A) : Result (Reply A) :=
  match outcome with
  | NetworkError e => Thrown e
  | HttpError status body =>
      Thrown {| exn_name := "Error";
                message :=
                  if Js.truthy_string body then body
                  else "Request failed (" ++ Js.string_of_int status ++ ")"
             |}
  | BadJson e => Thrown e
  | Json r => Returned r
  end.

Definition fetchJson {A : Type} (req : Request) (outcome : Fetch A)
  : M (Reply A) :=
  fun w => (fetch_result outcome, log req w).

(** A load fails: [fetchJson] throws, or it resolves to [null] and the
    first member read of the result throws. *)
Definition load_fails {A : Type} (outcome : Fetch A) : Prop :=
  forall a, fetch_result outcome <> Returned (JsonObject a).

(** The [TypeError] of reading a member of [null]; the message is the
    engine's (V8 shown). *)
Definition null_member (member : string) : Exn :=
  {| exn_name := "TypeError";
     message := "Cannot read properties of null (reading '" ++ member ++ "')"
  |}.

Definition set_config (c : AppConfig) (a : AppState) : AppState :=
  {| initData := initData a; subscription := subscription a;
     config := Some c; paymentMethods := paymentMethods a;
     platform := platform a |}.

Definition set_subscription (s : option Snapshot) (a : AppState)
  : AppState :=
  {| initData := initData a; subscription := s;
     config := config a; paymentMethods := paymentMethods a;
     platform := platform a |}.

Definition set_paymentMethods (l : list PaymentMethod) (a : AppState)
  : AppState :=
  {| initData := initData a; subscription := subscription a;
     config := config a; paymentMethods := l;
     platform := platform a |}.

(** [branding?.field]. *)
Definition of_branding (f : Branding -> option string) (c : AppConfig)
  : option string :=
  match branding c with Some b => f b | None => None end.

Definition apply_branding (c : AppConfig) (b : Brand) : Brand :=
  {| supportLink := Js.or_default (of_branding supportUrl c) "https://t.me";
     brandTitle := Js.or_default (of_branding brand_name c) "Bedolaga VPN";
     supportCopy :=
       Js.or_default (of_branding brand_description c) (supportCopy b);
     brandLogo_image :=
       if Js.truthy (of_branding logoUrl c)
       then Some ("url(" ++ Js.interpolate (of_branding logoUrl c) ++ ")")
       else brandLogo_image b;
     brandLogo_text :=
       if Js.truthy (of_branding logoUrl c) then "" else brandLogo_text b |}.

(** [(safeJsonParse(text) || {}).config || {}]. *)
Definition config_of (doc : option ConfigDoc) : AppConfig :=
  match doc with
  | Some d => match Data.config d with Some c => c | None => empty_config end
  | None => empty_config
  end.

(** The assignments of [loadConfig] once the text is parsed. *)
Definition apply_config (doc : option ConfigDoc) (w : World.t) : World.t :=
  let c := config_of doc in
  set_page (set_brand (apply_branding c (brand (page w))) (page w))
    (set_appState (set_config c (appState w)) w).

Definition loadConfig (env : Env) : M unit :=
  fun w =>
    let w := log GetConfig w in
    match config_fetch env with
    | ConfigRejected e => (Thrown e, w)
    | ConfigBody doc => (Returned tt, apply_config doc w)
    end.

Definition loadSubscription (env : Env) : M unit :=
  a <- get_appState ;;
  data <- fetchJson (PostSubscription (initData a))
                    (subscription_fetch env (initData a)) ;;
  match data with
  | JsonNull =>
      modify (fun w => set_appState (set_subscription None (appState w)) w) ;;
      throw {| exn_name := "TypeError";
               message := "Cannot destructure property 'user' of "
                          ++ "'subscription' as it is null." |}
  | JsonObject s =>
      modify
        (fun w => set_appState (set_subscription (Some s) (appState w)) w) ;;
      modify_page (Render.renderStatusCard (intl env) s) ;;
      modify_page (Render.renderActions s) ;;
      modify_page (Render.renderDevices s) ;;
      modify_page (Render.renderTransactions (intl env) s) ;;
      modify_page
        (Render.renderPlatformGuide (locale env) (config a) (platform a) s)
  end.

Definition loadPayments (env : Env) : M unit :=
  try_catch
    (a <- get_appState ;;
     data <- fetchJson (PostMethods (initData a))
                       (methods_fetch env (initData a)) ;;
     match data with
     | JsonNull => throw (null_member "methods")
     | JsonObject d =>
         let l := match methods d with Some l => l | None => [] end in
         modify
           (fun w => set_appState (set_paymentMethods l (appState w)) w) ;;
         modify_page (Render.renderPayments l)
     end)
    (fun _ => modify_page (fun p => set_payments (hide true (payments p)) p)).

Definition showInitError (p : Page.t) : Page.t :=
  let st := status p in
  set_platformGuide (hide true (platformGuide p))
    (set_transactions (hide true (Page.transactions p))
       (set_devices (hide true (devices p))
          (set_payments (hide true (payments p))
             (set_actions (hide true (actions p))
                (set_status
                   {| subscriptionTitle := "Open in Telegram";
                      subscriptionMeta :=
                        "We could not detect Telegram init data. Open the "
                        ++ "Mini App from the bot so we can load your "
                        ++ "subscription.";
                      statusBadge :=
                        {| badge_text := "Not authorized";
                           badge_success := badge_success (statusBadge st);
                           badge_danger := true |};
                      highlightGrid := highlightGrid st |}
                   p))))).

(** The [catch] block of [bootstrap]. *)
Definition show_load_failure (p : Page.t) : Page.t :=
  let st := status p in
  set_status
    {| subscriptionTitle := subscriptionTitle st;
       subscriptionMeta :=
         "Failed to load data. Pull to refresh or try again later.";
       statusBadge :=
         {| badge_text := "Error";
            badge_success := badge_success (statusBadge st);
            badge_danger := true |};
       highlightGrid := highlightGrid st |}
    p.

(** The statements of [bootstrap] before its first [await]; the listener
    it puts on the theme toggle changes nothing until clicked and is left
    out. *)
Definition boot_sync (env : Env) (w : World.t) : World.t :=
  let w1 :=
    set_appState
      {| initData := readInitData env;
         subscription := subscription (appState w);
         config := config (appState w);
         paymentMethods := paymentMethods (appState w);
         platform := Platform.detectPlatform (userAgent env) |}
      w in
  set_page (setTheme env None (page w1)) w1.

Definition bootstrap (env : Env) : M unit :=
  modify (boot_sync env) ;;
  loadConfig env ;;
  a <- get_appState ;;
  if negb (Js.truthy_string (initData a))
  then modify_page showInitError
  else
    try_catch
      (loadSubscription env ;; loadPayments env)
      (fun _ => modify_page show_load_failure).

(** [bootstrap] on its authenticated path up to the return of
    [loadSubscription]: what has run when [loadPayments] is entered. *)
Definition through_account (env : Env) : M unit :=
  modify (boot_sync env) ;;
  loadConfig env ;;
  loadSubscription env.

End App.

(** ** PaymentWorkflow: the click handler of a pay button

    The handler runs up to its [await fetchJson(...)] when the click is
    dispatched ([pay_begin]) and resumes when the request settles
    ([pay_settle]). *)

Module Pay.

Import Data Page World.

(** [document.getElementById(id)] for the id of an amount input: the
    first such input in document order. *)
Fixpoint find_amount_field (id : string) (ws : list PaymentWidget)
  : option NumberInput :=
  match ws with
  | [] => None
  | w :: rest =>
      match amount_field w with
      | Some f =>
          if String.eqb (input_id f) id then Some f
          else find_amount_field id rest
      | None => find_amount_field id rest
      end
  end.

Fixpoint find_option_field (id : string) (ws : list PaymentWidget)
  : option Select :=
  match ws with
  | [] => None
  | w :: rest =>
      match option_field w with
      | Some f =>
          if String.eqb (select_id f) id then Some f
          else find_option_field id rest
      | None => find_option_field id rest
      end
  end.

(** The [payload] of the handler of a button whose method is [m]. *)
Definition payload (w : World.t) (m : PaymentMethod) : PaymentRequest :=
  let ws := items (payments (page w)) in
  let amountField :=
    if requires_amount m then find_amount_field ("amount-" ++ id m) ws
    else None in
  let optionField :=
    match options m with
    | [] => None
    | _ => find_option_field ("option-" ++ id m) ws
    end in
  {| req_initData := initData (appState w);
     req_method := id m;
     req_amountRubles :=
       match amountField with
       | Some f =>
           Some (match input_value f with Some q => q | None => 0%Q end)
       | None => None
       end;
     req_option :=
       match optionField with
       | Some f => select_value f
       | None => None
       end |}.

Definition with_button (b : PayButton) (wd : PaymentWidget)
  : PaymentWidget :=
  {| widget_method := widget_method wd; widget_icon := widget_icon wd;
     widget_name := widget_name wd; widget_meta := widget_meta wd;
     pay_button := b;
     amount_field := amount_field wd; option_field := option_field wd |}.

(** The [i]-th widget of the list with [f] applied to it. *)
Fixpoint update_nth {A : Type} (i : nat) (f : A -> A) (l : list A)
  : list A :=
  match l, i with
  | [], _ => []
  | x :: rest, O => f x :: rest
  | x :: rest, S j => x :: update_nth j f rest
  end.

(** An assignment to [payButton] of the [i]-th widget. *)
Definition set_button (i : nat) (f : PayButton -> PayButton) (w : World.t)
  : World.t :=
  let c := payments (page w) in
  set_page
    (set_payments
       {| hidden := hidden c;
          items :=
            update_nth i (fun wd => with_button (f (pay_button wd)) wd)
                       (items c) |}
       (page w))
    w.

Definition set_disabled (d : bool) (b : PayButton) : PayButton :=
  {| disabled := d; label := label b |}.

Definition set_label (l : string) (b : PayButton) : PayButton :=
  {| disabled := disabled b; label := l |}.

(** The widget whose button is the [i]-th pay button. *)
Definition widget (i : nat) (w : World.t) : option PaymentWidget :=
  nth_error (items (payments (page w))) i.

(** From the click to the [await]: the button is disabled and relabelled,
    the payload is read off the page and the request goes out. *)
Definition pay_begin (i : nat) (w : World.t) : World.t :=
  match widget i w with
  | Some wd =>
      let w1 := set_button i (set_disabled true) w in
      let w2 := set_button i (set_label "Openingâ€¦") w1 in
      log (PostCreate (payload w2 (widget_method wd))) w2
  | None => w
  end.

(** From the settling of the request to the end of the handler: the rest
    of the [try] block, or the [catch] block, then the [finally] block. *)
Definition pay_settle (i : nat) (outcome : Fetch PaymentResponse)
  (w : World.t) : World.t :=
  let failed (e : Exn) :=
    alert ("Cannot start payment: " ++ message e)
          (set_button i (set_label "Try again") w) in
  set_button i (set_disabled false)
    match App.fetch_result outcome with
    | Returned (JsonObject response) =>
        set_button i (set_label "Open again")
          match payment_url response with
          | Some url =>
              if Js.truthy_string url then window_open url w else w
          | None => w
          end
    | Returned JsonNull => failed (App.null_member "payment_url")
    | Thrown e => failed e
    end.

(** One whole attempt, when nothing else happens in between. *)
Definition pay_attempt (env : Env) (i : nat) (w : World.t) : World.t :=
  match widget i w with
  | Some wd =>
      let w1 := pay_begin i w in
      pay_settle i (create_fetch env (payload w1 (widget_method wd))) w1
  | None => w
  end.

(** The states of the workflow in the specification, read off the
    button: the handler keeps no other record of them. *)
Inductive Phase : Type := Idle | Submitting | Succeeded | Failed.

Definition phase_of (b : PayButton) : option Phase :=
  if disabled b then
    if String.eqb (label b) "Openingâ€¦" then Some Submitting else None
  else if String.eqb (label b) "Pay" then Some Idle
  else if String.eqb (label b) "Open again" then Some Succeeded
  else if String.eqb (label b) "Try again" then Some Failed
  else None.



(** *** The page under user clicks and settling requests *)

Inductive Event : Type :=
| Click (i : nat)
| Settle (i : nat) (outcome : Fetch PaymentResponse)
| TypeAmount (i : nat) (v : option Q)
| Choose (i : nat) (v : string).

(** The world together with the payment-create requests in flight, each
    with the index of the button that issued it. *)
Record Session : Type := {
  world : World.t;
  in_flight : list (nat * PaymentRequest)
}.

Fixpoint pending (i : nat) (l : list (nat * PaymentRequest)) : nat :=
  match l with
  | [] => O
  | (j, _) :: rest =>
      if Nat.eqb i j then S (pending i rest) else pending i rest
  end.

(** The requests in flight with the oldest one of button [i] removed. *)
Fixpoint settle_one (i : nat) (l : list (nat * PaymentRequest))
  : list (nat * PaymentRequest) :=
  match l with
  | [] => []
  | (j, r) :: rest =>
      if Nat.eqb i j then rest else (j, r) :: settle_one i rest
  end.

Definition with_amount (v : option Q) (wd : PaymentWidget)
  : PaymentWidget :=
  {| widget_method := widget_method wd; widget_icon := widget_icon wd;
     widget_name := widget_name wd; widget_meta := widget_meta wd;
     pay_button := pay_button wd;
     amount_field :=
       match amount_field wd with
       | Some f =>
           Some {| input_id := input_id f;
                   input_caption := input_caption f;
                   input_min := input_min f; input_step := input_step f;
                   input_value := v |}
       | None => None
       end;
     option_field := option_field wd |}.

Definition with_choice (v : string) (wd : PaymentWidget) : PaymentWidget :=
  {| widget_method := widget_method wd; widget_icon := widget_icon wd;
     widget_name := widget_name wd; widget_meta := widget_meta wd;
     pay_button := pay_button wd;
     amount_field := amount_field wd;
     option_field :=
       match option_field wd with
       | Some f =>
           Some {| select_id := select_id f;
                   select_options := select_options f;
                   select_value :=
                     if existsb (fun o => String.eqb (fst o) v)
                                (select_options f)
                     then Some v else select_value f |}
       | None => None
       end |}.

Definition edit_widget (i : nat) (f : PaymentWidget -> PaymentWidget)
  (w : World.t) : World.t :=
  let c := payments (page w) in
  set_page
    (set_payments
       {| hidden := hidden c; items := update_nth i f (items c) |}
       (page w))
    w.

(** One event.  The browser dispatches no click on a disabled button, and
    a request settles only if it is in flight. *)
Definition step (s : Session) (ev : Event) : Session :=
  match ev with
  | Click i =>
      match widget i (world s) with
      | Some wd =>
          if disabled (pay_button wd) then s
          else
            let w' := pay_begin i (world s) in
            {| world := w';
               in_flight :=
                 (in_flight s
                  ++ [(i, payload w' (widget_method wd))])%list |}
      | None => s
      end
  | Settle i outcome =>
      match pending i (in_flight s) with
      | O => s
      | S _ =>
          {| world := pay_settle i outcome (world s);
             in_flight := settle_one i (in_flight s) |}
      end
  | TypeAmount i v =>
      {| world := edit_widget i (with_amount v) (world s);
         in_flight := in_flight s |}
  | Choose i v =>
      {| world := edit_widget i (with_choice v) (world s);
         in_flight := in_flight s |}
  end.

Definition run (s : Session) (evs : list Event) : Session :=
  fold_left step evs s.

(** The guard: a pay button is disabled exactly while one request of its
    own is in flight, and no button has more than one. *)
Definition guarded (s : Session) : Prop :=
  forall i,
    match widget i (world s) with
    | Some wd =>
        pending i (in_flight s)
        = if disabled (pay_button wd) then 1%nat else 0%nat
    | None => pending i (in_flight s) = 0%nat
    end.

(** The session right after [renderPayments] has filled the panel. *)
Definition opening (w : World.t) (methods : list PaymentMethod) : Session :=
  {| world := set_page (Render.renderPayments methods (page w)) w;
     in_flight := [] |}.

End Pay.

(** Fixtures for the closed examples of Part II. *)

Module Fixture.

Import Data Page World.

(** A page whose markup shows every card and has no text yet. *)
Definition blank_page : Page.t :=
  {| brand := {| brandLogo_image := None; brandLogo_text := "";
                 brandTitle := ""; supportLink := ""; supportCopy := "" |};
     theme := {| data_theme := ""; backgroundColor := None |};
     status := {| subscriptionTitle := ""; subscriptionMeta := "";
                  statusBadge := {| badge_text := "";
                                    badge_success := false;
                                    badge_danger := false |};
                  highlightGrid := [] |};
     actions := {| hidden := false; items := [] |};
     payments := {| hidden := false; items := [] |};
     devices := {| hidden := false; items := [] |};
     Page.transactions := {| hidden := false; items := [] |};
     platformGuide := {| hidden := false; items := [] |} |}.

Definition offline : Exn :=
  {| exn_name := "TypeError"; message := "Failed to fetch" |}.

(** A session opened from the host with token ["query_id=1"], every
    endpoint answering with an empty object. *)
Definition env_ok : Env :=
  {| tg := Some {| tg_initData := Some "query_id=1"; tg_query_id := None;
                   tg_language_code := Some "ru"; tg_colorScheme := None;
                   tg_themeParams := None |};
     query_initData := None;
     userAgent := "Mozilla/5.0 (Linux; Android 14) Telegram-Android/11.2";
     language := Some "ru-RU";
     intl := fun _ => None;
     config_fetch := ConfigBody (Some {| Data.config := None |});
     subscription_fetch := fun _ =>
       Json (JsonObject
         {| user := None; balance_kopeks := Js.Number 123456;
            balance_currency := None; subscription_missing_reason := None;
            subscription_url := None; happ_link := None;
            happ_crypto_link := None; links := None;
            connected_devices := None; connected_devices_count := None;
            Data.transactions := None |});
     methods_fetch := fun _ =>
       Json (JsonObject {| methods := None |});
     create_fetch := fun _ =>
       Json (JsonObject {| payment_url := None |}) |}.

(** The same session with the listed answers replaced. *)
Definition with_config (c : ConfigFetch) (env : Env) : Env :=
  {| tg := tg env; query_initData := query_initData env;
     userAgent := userAgent env; language := language env;
     intl := intl env; config_fetch := c;
     subscription_fetch := subscription_fetch env;
     methods_fetch := methods_fetch env;
     create_fetch := create_fetch env |}.

Definition with_subscription (f : Fetch Snapshot) (env : Env) : Env :=
  {| tg := tg env; query_initData := query_initData env;
     userAgent := userAgent env; language := language env;
     intl := intl env; config_fetch := config_fetch env;
     subscription_fetch := fun _ => f;
     methods_fetch := methods_fetch env;
     create_fetch := create_fetch env |}.

Definition with_methods (f : Fetch MethodsDoc) (env : Env) : Env :=
  {| tg := tg env; query_initData := query_initData env;
     userAgent := userAgent env; language := language env;
     intl := intl env; config_fetch := config_fetch env;
     subscription_fetch := subscription_fetch env;
     methods_fetch := fun _ => f;
     create_fetch := create_fetch env |}.

(** The same session opened outside the host, with no token anywhere. *)
Definition without_token (env : Env) : Env :=
  {| tg := None; query_initData := None;
     userAgent := userAgent env; language := language env;
     intl := intl env; config_fetch := config_fetch env;
     subscription_fetch := subscription_fetch env;
     methods_fetch := methods_fetch env;
     create_fetch := create_fetch env |}.

(** A top-up method that asks for an amount. *)
Definition topup (min : option Z) : PaymentMethod :=
  {| id := "yookassa"; name := Some "YooKassa"; icon := None;
     requires_amount := true; min_amount_kopeks := min;
     amount_step_kopeks := None; currency := Js.Text "RUB";
     options := [] |}.

(** A method that only redirects. *)
Definition stars : PaymentMethod :=
  {| id := "stars"; name := None; icon := None;
     requires_amount := false; min_amount_kopeks := None;
     amount_step_kopeks := None; currency := Js.Undefined; options := [] |}.

End Fixture.

(** ** The two remaining click listeners *)

Module Handlers.

Import Page World.

(** The listener [bootstrap] puts on the theme toggle:
    [setTheme(current === 'light' ? 'dark' : 'light')], [current] being
    the [data-theme] attribute. *)
Definition toggleTheme (env : Env) (p : Page.t) : Page.t :=
  App.setTheme env
    (Some (if String.eqb (data_theme (theme p)) "light" then "dark"
           else "light"))
    p.

(** What [navigator.clipboard] does for the listener of a link button:
    it is missing, or [writeText] rejects, or it resolves. *)
Inductive Clipboard : Type :=
| NoClipboard
| WriteRejects
| WriteResolves.

(** A "Copy & open" button of [renderActions] with what its listener
    acts on: its text, the resets scheduled with [setTimeout] and not yet
    run, the clipboard and the windows opened. *)
Record LinkButton : Type := {
  link_text : string;
  resets_due : nat;
  clipboard_text : option string;
  link_windows : list string
}.

(** The button as [renderActions] creates it. *)
Definition link_button : LinkButton :=
  {| link_text := "Copy & open"; resets_due := O;
     clipboard_text := None; link_windows := [] |}.

(** The click listener of the button of [link].  It awaits [writeText]
    once; whatever runs during that wait, what the listener itself does
    is this, so it is taken in one step. *)
Definition copy_and_open (clip : Clipboard) (link : string)
  (b : LinkButton) : LinkButton :=
  let b1 :=
    match clip with
    | WriteResolves =>
        {| link_text := "Copied!"; resets_due := S (resets_due b);
           clipboard_text := Some link; link_windows := link_windows b |}
    | _ => b
    end in
  {| link_text := link_text b1; resets_due := resets_due b1;
     clipboard_text := clipboard_text b1;
     link_windows := (link_windows b1 ++ [link])%list |}.

(** A scheduled reset runs: [btn.textContent = 'Copy & open']. *)
Definition reset_runs (b : LinkButton) : LinkButton :=
  match resets_due b with
  | O => b
  | S n =>
      {| link_text := "Copy & open"; resets_due := n;
         clipboard_text := clipboard_text b;
         link_windows := link_windows b |}
  end.

Inductive LinkEvent : Type :=
| LinkClick (clip : Clipboard)
| ResetRuns.

Definition link_step (link : string) (b : LinkButton) (ev : LinkEvent)
  : LinkButton :=
  match ev with
  | LinkClick clip => copy_and_open clip link b
  | ResetRuns => reset_runs b
  end.

(** The clicks of a run of events. *)
Fixpoint clicks (evs : list LinkEvent) : nat :=
  match evs with
  | [] => O
  | LinkClick _ :: rest => S (clicks rest)
  | ResetRuns :: rest => clicks rest
  end.

End Handlers.

(** ** Reading a formatted amount back *)

Module Readback.






End Readback.

(* ===================================================================== *)
(** * Part II: properties *)
(* ===================================================================== *)

(** ** PlatformDetector *)

Section PlatformProperties.

Import Platform.

Lemma prefix_app (p s : string) :
  String.prefix p s = true <-> exists b, s = p ++ b.
Proof.
  revert s; induction p as [|c p IH]; intros s.
  - split; [intros _; now exists s | intros _; now destruct s].
  - destruct s as [|d s]; simpl.
    + split; [discriminate | intros [b Hb]; discriminate].
    + destruct (ascii_dec c d) as [->|Hne].
      * rewrite IH. split; intros [b Hb]; exists b.
        -- now rewrite Hb.
        -- now injection Hb.
      * split; [discriminate|].
        intros [b Hb]. injection Hb as Hc _. now elim Hne.
Qed.

(** [includes] is the substring test. *)
Lemma includes_app (pat s : string) :
  Js.includes pat s = true <-> exists a b, s = a ++ pat ++ b.
Proof.
  induction s as [|c s IH].
  - cbn [Js.includes]. rewrite orb_false_r, prefix_app. split.
    + intros [b Hb]. now exists "", b.
    + intros [a [b Hb]]. destruct a; [now exists b | discriminate].
  - cbn [Js.includes]. rewrite orb_true_iff, IH, prefix_app. split.
    + intros [[b Hb] | [a [b Hb]]].
      * now exists "", b.
      * exists (String c a), b. simpl. now rewrite Hb.
    + intros [a [b Hb]]. destruct a as [|d a].
      * left. now exists b.
      * right. exists a, b. simpl in Hb. now injection Hb.
Qed.

(** C10.  For every user-agent string [detectPlatform] returns one tag of
    the closed set of seven; it is the tag of the first row of the
    priority table (iOS, Android, Windows, Mac, Linux, AndroidTV) one of
    whose patterns occurs in the lower-cased string; and it is [generic]
    exactly when no pattern of any row occurs. *)
Theorem detectPlatform_first_match (ua : string) :
  In (detectPlatform ua) platform_tags
  /\ detectPlatform ua = detect_by_priority ua
  /\ (detectPlatform ua = "generic" <->
      forall row, In row priority_table ->
        Js.test_any (snd row) (Js.toLowerCase ua) = false).
Proof.
  unfold detectPlatform, detect_by_priority, priority_table, platform_tags.
  cbn [find snd fst].
  destruct (Js.test_any ios_patterns _) eqn:E1;
    [|destruct (Js.test_any android_patterns _) eqn:E2;
      [|destruct (Js.test_any windows_patterns _) eqn:E3;
        [|destruct (Js.test_any mac_patterns _) eqn:E4;
          [|destruct (Js.test_any linux_patterns _) eqn:E5;
            [|destruct (Js.test_any tv_patterns _) eqn:E6]]]]];
    (split; [simpl; tauto|]); (split; [reflexivity|]);
    (split; [try discriminate | intros H]).
  all: try (intros _ row Hrow; simpl in Hrow;
            repeat (destruct Hrow as [<-|Hrow]; [assumption|]);
            contradiction).
  all: try reflexivity.
  - specialize (H _ (or_introl eq_refl)). cbn [snd] in H. congruence.
  - specialize (H _ (or_intror (or_introl eq_refl))). cbn [snd] in H.
    congruence.
  - specialize (H _ (or_intror (or_intror (or_introl eq_refl)))).
    cbn [snd] in H. congruence.
  - specialize
      (H _ (or_intror (or_intror (or_intror (or_introl eq_refl))))).
    cbn [snd] in H. congruence.
  - specialize
      (H _ (or_intror (or_intror (or_intror (or_intror
              (or_introl eq_refl)))))).
    cbn [snd] in H. congruence.
  - specialize
      (H _ (or_intror (or_intror (or_intror (or_intror (or_intror
              (or_introl eq_refl))))))).
    cbn [snd] in H. congruence.
Qed.

(** An Android user agent also names Linux: the earlier row wins. *)
Example detectPlatform_android_before_linux :
  detectPlatform "Mozilla/5.0 (Linux; Android 14; Pixel 8) Mobile"
  = "android".
Proof. reflexivity. Qed.

Example detectPlatform_desktop_linux :
  detectPlatform "Mozilla/5.0 (X11; Linux x86_64) Gecko/20100101"
  = "linux".
Proof. reflexivity. Qed.

Example detectPlatform_tv :
  detectPlatform "Opera/9.80 (SmartTV; HbbTV/1.1.1)" = "androidTV".
Proof. reflexivity. Qed.

Example detectPlatform_unknown : detectPlatform "curl/8.5.0" = "generic".
Proof. reflexivity. Qed.

End PlatformProperties.

(** ** JavaScript numbers *)

Section NumProperties.

Import Num.







End NumProperties.

(** ** Monetary formatting *)

Section MoneyProperties.

Import Money.







(** The end-to-end figure of the specification: a balance of 123456 minor
    units. *)
Example formatAmount_123456 :
  formatAmount (Js.Number 123456) (Some "RUB") = "1234.56 RUB".
Proof. reflexivity. Qed.

(** From [2^52] on the doubles are too coarse for the quotient: two
    neighbouring counts print alike. *)
Example formatAmount_beyond_2_52 :
  formatAmount (Js.Number 9007199254740990) (Some "RUB")
  = "90071992547409.91 RUB"
  /\ formatAmount (Js.Number 9007199254740991) (Some "RUB")
     = "90071992547409.91 RUB"
  /\ formatAmount (Js.Number 100000000000000000000099) (Some "RUB")
     = "1.0000000000000001e+21 RUB".
Proof. vm_compute. repeat split. Qed.


End MoneyProperties.

(** ** I18nResolver *)

Section I18nProperties.

Import I18n.

(** The result is always [null], [undefined] or a string. *)
Lemma resolveI18n_shape (loc : Locale) (e : entity) :
  resolveI18n loc e = Js.Null \/ resolveI18n loc e = Js.Undefined
  \/ exists s, resolveI18n loc e = Js.Text s.
Proof.
  destruct e as [|s|entries]; simpl.
  - now left.
  - destruct (Js.truthy_string s); [right; right; now exists s | now left].
  - assert (Hf : first_value entries = Js.Undefined
                 \/ exists s, first_value entries = Js.Text s).
    { destruct entries as [|[k v] rest]; [now left | right; now exists v]. }
    assert (Hen : forall r,
               r = match get "en" entries with
                   | Some v' =>
                       if Js.truthy_string v' then Js.Text v'
                       else first_value entries
                   | None => first_value entries
                   end ->
               r = Js.Null \/ r = Js.Undefined \/ exists s, r = Js.Text s).
    { intros r ->. destruct (get "en" entries) as [v'|];
        [destruct (Js.truthy_string v'); [right; right; now exists v'|]|];
        destruct Hf as [->|[s ->]]; eauto. }
    destruct (get (active_language loc) entries) as [v|];
      [destruct (Js.truthy_string v); [right; right; now exists v|]|];
      now apply Hen.
Qed.

(** C4, as the code has it.  [resolveI18n] is a total function of the
    locale and its argument.  [null]/absent gives [null]; a NON-EMPTY
    plain string is returned unchanged and the empty string gives [null];
    for a mapping the first NON-EMPTY one of the active-language entry and
    the ["en"] entry is returned, else the first value in enumeration
    order, and [undefined] when the mapping has no entry. *)
Theorem resolveI18n_fallback
  (loc : Locale) (s v : string) (entries : list (string * string))
  (Hs : s <> "") (Hv : v <> "") :
  resolveI18n loc Absent = Js.Null
  /\ resolveI18n loc (Plain s) = Js.Text s
  /\ resolveI18n loc (Plain "") = Js.Null
  /\ (get (active_language loc) entries = Some v ->
      resolveI18n loc (Mapping entries) = Js.Text v)
  /\ (Js.truthy (get (active_language loc) entries) = false ->
      get "en" entries = Some v ->
      resolveI18n loc (Mapping entries) = Js.Text v)
  /\ (Js.truthy (get (active_language loc) entries) = false ->
      Js.truthy (get "en" entries) = false ->
      resolveI18n loc (Mapping entries)
      = match entries with
        | [] => Js.Undefined
        | (_, first) :: _ => Js.Text first
        end).
Proof.
  assert (Ts : Js.truthy_string s = true)
    by (destruct s; [now elim Hs | reflexivity]).
  assert (Tv : Js.truthy_string v = true)
    by (destruct v; [now elim Hv | reflexivity]).
  repeat split.
  - simpl. now rewrite Ts.
  - intros H. simpl. now rewrite H, Tv.
  - intros Hl He. simpl. rewrite He, Tv.
    destruct (get (active_language loc) entries) as [x|]; [|reflexivity].
    simpl in Hl. now rewrite Hl.
  - intros Hl He. simpl.
    destruct (get (active_language loc) entries) as [x|];
      destruct (get "en" entries) as [y|]; simpl in Hl, He;
      rewrite ?Hl, ?He; reflexivity.
Qed.

Lemma resolveI18n_fallback_witness :
  let loc := {| host_language := Some "ru";
                navigator_language := Some "en-US" |} in
  let entries := [("de", "Installieren"); ("en", "Install")] in
  resolveI18n loc Absent = Js.Null
  /\ resolveI18n loc (Plain "Install") = Js.Text "Install"
  /\ resolveI18n loc (Plain "") = Js.Null
  /\ (get (active_language loc) entries = Some "Install" ->
      resolveI18n loc (Mapping entries) = Js.Text "Install")
  /\ (Js.truthy (get (active_language loc) entries) = false ->
      get "en" entries = Some "Install" ->
      resolveI18n loc (Mapping entries) = Js.Text "Install")
  /\ (Js.truthy (get (active_language loc) entries) = false ->
      Js.truthy (get "en" entries) = false ->
      resolveI18n loc (Mapping entries) = Js.Text "Installieren").
Proof.
  intros loc entries.
  apply (resolveI18n_fallback loc "Install" "Install" entries);
    discriminate.
Defined.

(** The fallback chain at work: Russian host, mapping without ["ru"]. *)
Example resolveI18n_falls_back_to_en :
  resolveI18n {| host_language := Some "ru"; navigator_language := None |}
              (Mapping [("de", "Installieren"); ("en", "Install")])
  = Js.Text "Install".
Proof. reflexivity. Qed.

Example resolveI18n_empty_mapping :
  resolveI18n {| host_language := None; navigator_language := None |}
              (Mapping [])
  = Js.Undefined.
Proof. reflexivity. Qed.

(** C4, as stated, fails: the empty string is a plain string and is not
    returned unchanged. *)
Lemma resolveI18n_drops_empty_string :
  let loc := {| host_language := Some "ru";
                navigator_language := Some "en-US" |} in
  resolveI18n loc (Plain "") = Js.Null
  /\ resolve_as_specified loc (Plain "") = Js.Text ""
  /\ resolveI18n loc (Plain "") <> resolve_as_specified loc (Plain "").
Proof.
  repeat split. discriminate.
Qed.

End I18nProperties.

(** ** ViewRenderer: sections follow their collections *)

Section RenderProperties.

Import Data Page Render.

Lemma card_of_hidden {A : Type} (l : list A) :
  hidden (card_of l) = true <-> l = [].
Proof.
  destruct l; simpl; split; congruence.
Qed.

Lemma card_of_items {A : Type} (l : list A) : items (card_of l) = l.
Proof.
  now destruct l.
Qed.

Lemma set_add_In (x y : string) (s : list string) :
  In y (set_add x s) <-> y = x \/ In y s.
Proof.
  unfold set_add. destruct (existsb (String.eqb x) s) eqn:E.
  - apply existsb_exists in E. destruct E as [z [Hz Hxz]].
    apply String.eqb_eq in Hxz. subst z. split; [tauto|].
    intros [->|H]; assumption.
  - rewrite in_app_iff. simpl. split; [intros [H|[H|[]]] | intros [H|H]];
      auto.
Qed.

Lemma set_add_NoDup (x : string) (s : list string) :
  NoDup s -> NoDup (set_add x s).
Proof.
  intros Hs. unfold set_add. destruct (existsb (String.eqb x) s) eqn:E.
  - assumption.
  - induction Hs as [|y s Hy Hs IH]; simpl.
    + constructor; [intros [] | constructor].
    + simpl in E. apply orb_false_iff in E. destruct E as [Exy Es].
      constructor.
      * rewrite in_app_iff. simpl. intros [H|[H|[]]]; [now apply Hy|].
        subst y. now rewrite String.eqb_refl in Exy.
      * now apply IH.
Qed.

Lemma add_if_truthy_In (f : option string) (y : string) (s : list string) :
  In y (add_if_truthy f s) <-> (f = Some y /\ y <> "") \/ In y s.
Proof.
  destruct f as [x|]; simpl.
  - destruct x as [|c x]; simpl.
    + split; [tauto|]. intros [[H Hy]|H]; [|assumption].
      injection H as <-. now elim Hy.
    + rewrite set_add_In. split.
      * intros [->|H]; [left; split; [reflexivity | discriminate] | tauto].
      * intros [[H _]|H]; [injection H as <-; tauto | tauto].
  - split; [tauto|]. intros [[H _]|H]; [discriminate | assumption].
Qed.

Lemma add_if_truthy_NoDup (f : option string) (s : list string) :
  NoDup s -> NoDup (add_if_truthy f s).
Proof.
  intros Hs. destruct f as [x|]; simpl; [|assumption].
  destruct (Js.truthy_string x); [now apply set_add_NoDup | assumption].
Qed.

Lemma fold_set_add_In (l acc : list string) (y : string) :
  In y (fold_left (fun acc x => set_add x acc) l acc) <-> In y l \/ In y acc.
Proof.
  revert acc; induction l as [|x l IH]; intros acc; simpl.
  - tauto.
  - rewrite IH, set_add_In. intuition congruence.
Qed.

Lemma fold_set_add_NoDup (l acc : list string) :
  NoDup acc -> NoDup (fold_left (fun acc x => set_add x acc) l acc).
Proof.
  revert acc; induction l as [|x l IH]; intros acc H; simpl.
  - assumption.
  - apply IH. now apply set_add_NoDup.
Qed.

(** The [Set] of [renderActions] holds each link once: the three link
    fields that are not empty and the elements of [links]. *)
Lemma link_set_spec (s : Snapshot) :
  NoDup (link_set s)
  /\ forall y, In y (link_set s) <->
       (subscription_url s = Some y /\ y <> "")
       \/ (happ_link s = Some y /\ y <> "")
       \/ (happ_crypto_link s = Some y /\ y <> "")
       \/ In y (match links s with Some l => l | None => [] end).
Proof.
  unfold link_set. split.
  - apply fold_set_add_NoDup.
    repeat apply add_if_truthy_NoDup. constructor.
  - intros y. rewrite fold_set_add_In, !add_if_truthy_In. simpl. tauto.
Qed.

Lemma link_set_empty (s : Snapshot) :
  link_set s = [] <->
  Js.truthy (subscription_url s) = false
  /\ Js.truthy (happ_link s) = false
  /\ Js.truthy (happ_crypto_link s) = false
  /\ match links s with Some l => l | None => [] end = [].
Proof.
  destruct (link_set_spec s) as [_ Hin].
  assert (T : forall f : option string,
             Js.truthy f = false <-> forall y, ~ (f = Some y /\ y <> "")).
  { intros [[|c t]|]; simpl; split; try congruence.
    - intros _ y [H Hy]. injection H as <-. now elim Hy.
    - intros H. elim (H (String c t)). split; [reflexivity | discriminate].
    - intros _ y [H _]. discriminate. }
  split.
  - intros E. rewrite E in Hin.
    repeat split; try (apply T; intros y Hy; apply (Hin y); tauto).
    destruct (match links s with Some l => l | None => [] end) as [|y l];
      [reflexivity|]. elim (proj2 (Hin y)). right. right. right. now left.
  - intros (H1 & H2 & H3 & H4).
    destruct (link_set s) as [|y l]; [reflexivity|].
    rewrite H4 in Hin. destruct (proj1 (Hin y) (or_introl eq_refl))
      as [H|[H|[H|[]]]].
    + now elim (proj1 (T _) H1 y).
    + now elim (proj1 (T _) H2 y).
    + now elim (proj1 (T _) H3 y).
Qed.

(** C6.  Every list renderer hides its card and leaves no item in it when
    its collection is empty, and otherwise shows the card with one item
    per element: the devices in order, the first five transactions as
    received, and the links.  The links of a snapshot are its
    subscription URL, Happ link and Happ crypto link when not empty and
    the elements of its [links] list: the list shown holds exactly these,
    each once, and the card is hidden exactly when there is none. *)
Theorem sections_follow_collections
  (intl : string -> option string) (s : Snapshot) (p : Page.t) :
  let devs := match connected_devices s with Some l => l | None => [] end in
  let txs := match Data.transactions s with Some l => l | None => [] end in
  let lnks := match links s with Some l => l | None => [] end in
  (items (devices (renderDevices s p)) = map device_label devs
   /\ (hidden (devices (renderDevices s p)) = true <-> devs = [])
   /\ length (items (devices (renderDevices s p))) = length devs)
  /\ (items (Page.transactions (renderTransactions intl s p))
      = map (transaction_item intl) (firstn 5 txs)
      /\ (hidden (Page.transactions (renderTransactions intl s p)) = true
          <-> txs = [])
      /\ length (items (Page.transactions (renderTransactions intl s p)))
         = Nat.min 5 (length txs))
  /\ ((forall y,
         In y (items (actions (renderActions s p))) <->
           (subscription_url s = Some y /\ y <> "")
           \/ (happ_link s = Some y /\ y <> "")
           \/ (happ_crypto_link s = Some y /\ y <> "")
           \/ In y lnks)
      /\ NoDup (items (actions (renderActions s p)))
      /\ (hidden (actions (renderActions s p)) = true <->
          Js.truthy (subscription_url s) = false
          /\ Js.truthy (happ_link s) = false
          /\ Js.truthy (happ_crypto_link s) = false
          /\ lnks = [])
      /\ (hidden (actions (renderActions s p)) = true ->
          items (actions (renderActions s p)) = [])).
Proof.
  intros devs txs lnks.
  unfold renderDevices, renderTransactions, renderActions.
  cbn [devices Page.transactions actions set_devices set_transactions
       set_actions].
  fold devs. fold txs.
  rewrite !card_of_items, !card_of_hidden.
  split; [|split].
  - repeat split.
    + intros H. now destruct devs.
    + intros ->. reflexivity.
    + apply length_map.
  - repeat split.
    + intros H. destruct txs; [reflexivity | discriminate].
    + intros ->. reflexivity.
    + now rewrite length_map, length_firstn.
  - destruct (link_set_spec s) as [Hnd Hin].
    split; [exact Hin|]. split; [exact Hnd|].
    split; [apply link_set_empty | tauto].
Qed.

(** The scenario of the specification: no devices and six transactions. *)
Example six_transactions_show_five :
  let tx n := {| description := Some n; type := Js.Null;
                 created_at := None;
                 amount_kopeks := Js.Number 100; is_completed := true |} in
  let s := {| user := None; balance_kopeks := Js.Number 123456;
              balance_currency := None; subscription_missing_reason := None;
              subscription_url := None; happ_link := None;
              happ_crypto_link := None; links := None;
              connected_devices := Some [];
              connected_devices_count := None;
              Data.transactions :=
                Some [tx "a"; tx "b"; tx "c"; tx "d"; tx "e"; tx "f"] |} in
  let p := renderTransactions (fun _ => None) s
             (renderDevices s Fixture.blank_page) in
  hidden (devices p) = true
  /\ map tx_title (items (Page.transactions p)) = ["a"; "b"; "c"; "d"; "e"]
  /\ hidden (Page.transactions p) = false.
Proof.
  repeat split.
Qed.

(** A transaction without description shows its type as the template
    prints it, [null] and a missing field apart. *)
Example transaction_title_of_missing_description :
  let tx t := {| description := None; type := t; created_at := None;
                 amount_kopeks := Js.Null; is_completed := false |} in
  map (fun t => tx_title (transaction_item (fun _ => None) (tx t)))
      [Js.Text "deposit"; Js.Null; Js.Undefined]
  = ["deposit"; "null"; "undefined"].
Proof. reflexivity. Qed.

End RenderProperties.

(** ** BootstrapController *)

Section BootstrapProperties.

Import Data Page World App.

(** No token is resolvable exactly when the host token and the query
    parameter are both empty or missing. *)
Lemma readInitData_empty (env : Env) :
  readInitData env = "" <->
  Js.truthy (match tg env with Some t => tg_initData t | None => None end)
  = false
  /\ Js.truthy (query_initData env) = false.
Proof.
  unfold readInitData.
  destruct (tg env) as [t|]; simpl.
  - destruct (tg_initData t) as [[|c s]|], (tg_query_id t) as [[|d q]|],
             (query_initData env) as [[|e r]|]; simpl;
      split; try tauto; try discriminate; intros [H1 H2]; discriminate.
  - destruct (query_initData env) as [[|e r]|]; simpl;
      split; try tauto; try discriminate; intros [H1 H2]; discriminate.
Qed.

(** The host token wins over the query parameter; a host that reports
    only a query id contributes nothing. *)
Example readInitData_prefers_host :
  readInitData Fixture.env_ok = "query_id=1".
Proof. reflexivity. Qed.

Example readInitData_query_fallback :
  readInitData
    {| tg := Some {| tg_initData := None; tg_query_id := Some "AAH";
                     tg_language_code := None; tg_colorScheme := None;
                     tg_themeParams := None |};
       query_initData := Some "user=7";
       userAgent := ""; language := None; intl := fun _ => None;
       config_fetch := ConfigBody None;
       subscription_fetch := fun _ => Json JsonNull;
       methods_fetch := fun _ => Json JsonNull;
       create_fetch := fun _ => Json JsonNull |}
  = "user=7".
Proof. reflexivity. Qed.

Lemma load_fails_cases {A : Type} (outcome : Fetch A) :
  load_fails outcome ->
  (exists e, fetch_result outcome = Thrown e)
  \/ fetch_result outcome = Returned JsonNull.
Proof.
  intros H. destruct (fetch_result outcome) as [[|a]|e] eqn:E.
  - now right.
  - now elim (H a).
  - left. now exists e.
Qed.

Lemma bootstrap_config_rejected (env : Env) (w : World.t) (e : Exn) :
  config_fetch env = ConfigRejected e ->
  bootstrap env w = (Thrown e, log GetConfig (boot_sync env w)).
Proof.
  intros H. unfold bootstrap, bind, modify, loadConfig. now rewrite H.
Qed.

Lemma bootstrap_no_token (env : Env) (w : World.t) (doc : option ConfigDoc) :
  config_fetch env = ConfigBody doc ->
  readInitData env = "" ->
  bootstrap env w
  = (Returned tt,
     let w2 := apply_config doc (log GetConfig (boot_sync env w)) in
     set_page (showInitError (page w2)) w2).
Proof.
  intros H Ht. unfold bootstrap, bind, modify, loadConfig, get_appState.
  rewrite H. cbn. rewrite Ht. reflexivity.
Qed.

(** C5, as the code has it.  In every bootstrap pass in which no init
    token is resolvable the only network call is the config load; and IF
    THE CONFIG FETCH DOES NOT REJECT, the pass ends normally with the
    unauthenticated placeholder: the five data cards hidden, the title,
    the one explanatory message and the "Not authorized" badge set, no
    alert shown and no window opened. *)
Theorem no_token_only_config
  (env : Env) (w : World.t)
  (Hhost : Js.truthy (match tg env with
                      | Some t => tg_initData t
                      | None => None
                      end) = false)
  (Hquery : Js.truthy (query_initData env) = false) :
  requests (snd (bootstrap env w)) = (requests w ++ [GetConfig])%list
  /\ forall doc, config_fetch env = ConfigBody doc ->
       let p := page (snd (bootstrap env w)) in
       fst (bootstrap env w) = Returned tt
       /\ hidden (actions p) = true
       /\ hidden (payments p) = true
       /\ hidden (devices p) = true
       /\ hidden (Page.transactions p) = true
       /\ hidden (platformGuide p) = true
       /\ subscriptionTitle (status p) = "Open in Telegram"
       /\ subscriptionMeta (status p)
          = "We could not detect Telegram init data. Open the Mini App "
            ++ "from the bot so we can load your subscription."
       /\ badge_text (statusBadge (status p)) = "Not authorized"
       /\ badge_danger (statusBadge (status p)) = true
       /\ alerts (snd (bootstrap env w)) = alerts w
       /\ opened (snd (bootstrap env w)) = opened w.
Proof.
  assert (Ht : readInitData env = "")
    by (apply readInitData_empty; now split).
  split.
  - destruct (config_fetch env) as [e|doc] eqn:Hc.
    + now rewrite (bootstrap_config_rejected env w e Hc).
    + now rewrite (bootstrap_no_token env w doc Hc Ht).
  - intros doc Hc p. subst p.
    rewrite (bootstrap_no_token env w doc Hc Ht).
    repeat split.
Qed.

Lemma bootstrap_with_token (env : Env) (w : World.t)
  (doc : option ConfigDoc) :
  config_fetch env = ConfigBody doc ->
  Js.truthy_string (readInitData env) = true ->
  bootstrap env w
  = try_catch (loadSubscription env ;; loadPayments env)
              (fun _ => modify_page show_load_failure)
      (apply_config doc (log GetConfig (boot_sync env w))).
Proof.
  intros H Ht. unfold bootstrap, bind, modify, loadConfig, get_appState.
  rewrite H. cbn. rewrite Ht. reflexivity.
Qed.

(** C3, as the code has it.  In every bootstrap pass with a token whose
    config fetch does not reject (whatever its text parses to), a failing
    ACCOUNT load (network error, non-2xx status, unparsable or [null]
    body) ends the pass without an exception escaping [bootstrap]: no
    payment-methods request is made, the status area shows the generic
    message and the "Error" badge with the danger class, and the title,
    the highlight grid and every card are as they were. *)
Theorem account_load_failure_is_surfaced
  (env : Env) (w : World.t) (doc : option ConfigDoc)
  (Hc : config_fetch env = ConfigBody doc)
  (Ht : Js.truthy_string (readInitData env) = true)
  (Hf : load_fails (subscription_fetch env (readInitData env))) :
  let w' := snd (bootstrap env w) in
  let p := page w' in
  fst (bootstrap env w) = Returned tt
  /\ requests w'
     = (requests w
        ++ [GetConfig; PostSubscription (readInitData env)])%list
  /\ subscriptionMeta (status p)
     = "Failed to load data. Pull to refresh or try again later."
  /\ badge_text (statusBadge (status p)) = "Error"
  /\ badge_danger (statusBadge (status p)) = true
  /\ subscriptionTitle (status p) = subscriptionTitle (status (page w))
  /\ highlightGrid (status p) = highlightGrid (status (page w))
  /\ actions p = actions (page w)
  /\ payments p = payments (page w)
  /\ devices p = devices (page w)
  /\ Page.transactions p = Page.transactions (page w)
  /\ platformGuide p = platformGuide (page w)
  /\ alerts w' = alerts w.
Proof.
  intros w' p. subst p w'.
  rewrite (bootstrap_with_token env w doc Hc Ht).
  unfold try_catch, loadSubscription, bind, get_appState, fetchJson.
  cbn.
  destruct (load_fails_cases _ Hf) as [[e He]|He]; rewrite He; cbn;
    rewrite <- !app_assoc; repeat split.
Qed.

(** From any world, a failing payment-methods load only hides the
    payments card. *)
Lemma loadPayments_failure (env : Env) (w : World.t) :
  load_fails (methods_fetch env (initData (appState w))) ->
  loadPayments env w
  = (Returned tt,
     let w1 := log (PostMethods (initData (appState w))) w in
     set_page (set_payments (hide true (payments (page w1))) (page w1)) w1).
Proof.
  intros Hf.
  unfold loadPayments, try_catch, bind, get_appState, fetchJson.
  destruct (load_fails_cases _ Hf) as [[e He]|He]; rewrite He; reflexivity.
Qed.

Lemma through_account_configured (env : Env) (w : World.t)
  (doc : option ConfigDoc) :
  config_fetch env = ConfigBody doc ->
  through_account env w
  = loadSubscription env (apply_config doc (log GetConfig (boot_sync env w))).
Proof.
  intros H. unfold through_account, bind, modify, loadConfig.
  now rewrite H.
Qed.

Lemma loadSubscription_initData (env : Env) (w w1 : World.t) (r : Result unit) :
  loadSubscription env w = (r, w1) ->
  initData (appState w1) = initData (appState w).
Proof.
  unfold loadSubscription, bind, get_appState, fetchJson, modify,
    modify_page, throw.
  destruct (fetch_result _) as [[|s]|e]; cbn; intros H; injection H as _ <-;
    reflexivity.
Qed.

(** C7.  In every bootstrap pass that reaches the payment-methods load
    (token present, account loaded and rendered, leaving the world [w1])
    and in which that load fails, [bootstrap] ends normally and the final
    page is the page of [w1] with the payments card hidden: the status
    area and every other section are those of [w1], and nothing is
    alerted. *)
Theorem payments_load_failure_is_local
  (env : Env) (w w1 : World.t)
  (Ht : Js.truthy_string (readInitData env) = true)
  (Hacc : through_account env w = (Returned tt, w1))
  (Hf : load_fails (methods_fetch env (readInitData env))) :
  let w' := snd (bootstrap env w) in
  fst (bootstrap env w) = Returned tt
  /\ page w' = set_payments (hide true (payments (page w1))) (page w1)
  /\ hidden (payments (page w')) = true
  /\ status (page w') = status (page w1)
  /\ actions (page w') = actions (page w1)
  /\ devices (page w') = devices (page w1)
  /\ Page.transactions (page w') = Page.transactions (page w1)
  /\ platformGuide (page w') = platformGuide (page w1)
  /\ alerts w' = alerts w1
  /\ requests w' = (requests w1 ++ [PostMethods (readInitData env)])%list.
Proof.
  intros w'. subst w'.
  destruct (config_fetch env) as [e|doc] eqn:Hc.
  - unfold through_account, bind, modify, loadConfig in Hacc.
    rewrite Hc in Hacc. discriminate.
  - rewrite (through_account_configured env w doc Hc) in Hacc.
    pose proof (loadSubscription_initData _ _ _ _ Hacc) as Hi.
    cbn in Hi.
    rewrite (bootstrap_with_token env w doc Hc Ht).
    unfold try_catch, bind. rewrite Hacc.
    rewrite loadPayments_failure by (now rewrite Hi).
    cbn. rewrite Hi. repeat split.
Qed.


Lemma no_token_only_config_witness :
  requests (snd (bootstrap (Fixture.without_token Fixture.env_ok)
                           (start Fixture.blank_page)))
  = [GetConfig].
Proof.
  apply (proj1 (no_token_only_config (Fixture.without_token Fixture.env_ok)
                  (start Fixture.blank_page) eq_refl eq_refl)).
Defined.

(** C5, as stated, fails: with no token and a config fetch that rejects,
    [bootstrap] stops at the config load and the placeholder is never
    rendered (the cards stay shown and no message is set). *)
Lemma no_token_config_down_renders_nothing :
  let env := Fixture.without_token
               (Fixture.with_config (ConfigRejected Fixture.offline)
                                    Fixture.env_ok) in
  let out := bootstrap env (start Fixture.blank_page) in
  readInitData env = ""
  /\ fst out = Thrown Fixture.offline
  /\ hidden (payments (page (snd out))) = false
  /\ hidden (devices (page (snd out))) = false
  /\ subscriptionMeta (status (page (snd out))) = ""
  /\ badge_text (statusBadge (status (page (snd out)))) <> "Not authorized".
Proof.
  repeat split. discriminate.
Qed.

Lemma account_load_failure_is_surfaced_witness :
  let env := Fixture.with_subscription (HttpError 500 "") Fixture.env_ok in
  let out := bootstrap env (start Fixture.blank_page) in
  fst out = Returned tt
  /\ requests (snd out) = [GetConfig; PostSubscription "query_id=1"]
  /\ badge_text (statusBadge (status (page (snd out)))) = "Error".
Proof.
  intros env out.
  pose proof
    (account_load_failure_is_surfaced env (start Fixture.blank_page)
       (Some {| Data.config := None |}) eq_refl eq_refl
       (fun a => ltac:(discriminate))) as H.
  cbv zeta in H. fold out in H.
  destruct H as (H1 & H2 & _ & H4 & _).
  split; [exact H1 | split; [exact H2 | exact H4]].
Defined.

(** C3, as stated, fails on the config load: a config fetch that rejects
    is not caught, the exception leaves [bootstrap] and the status area is
    not touched. *)
Lemma config_fetch_failure_escapes :
  let env := Fixture.with_config (ConfigRejected Fixture.offline)
                                 Fixture.env_ok in
  let out := bootstrap env (start Fixture.blank_page) in
  fst out = Thrown Fixture.offline
  /\ status (page (snd out)) = status Fixture.blank_page
  /\ requests (snd out) = [GetConfig].
Proof.
  repeat split.
Qed.

(** A config text that does not parse is no failure at all: the empty
    config is used and the pass goes on to the account. *)
Example unparsable_config_is_absorbed :
  let env := Fixture.with_config (ConfigBody None) Fixture.env_ok in
  let out := bootstrap env (start Fixture.blank_page) in
  fst out = Returned tt
  /\ subscriptionMeta (status (page (snd out)))
     = "Active subscription overview."
  /\ brandTitle (brand (page (snd out))) = "Bedolaga VPN"
  /\ requests (snd out)
     = [GetConfig; PostSubscription "query_id=1"; PostMethods "query_id=1"].
Proof.
  repeat split.
Qed.

Lemma payments_load_failure_is_local_witness :
  let env := Fixture.with_methods (HttpError 500 "boom") Fixture.env_ok in
  let w1 := snd (through_account env (start Fixture.blank_page)) in
  let out := bootstrap env (start Fixture.blank_page) in
  fst out = Returned tt
  /\ hidden (payments (page (snd out))) = true
  /\ status (page (snd out)) = status (page w1)
  /\ subscriptionMeta (status (page (snd out)))
     = "Active subscription overview.".
Proof.
  intros env w1 out.
  pose proof
    (payments_load_failure_is_local env (start Fixture.blank_page) w1
       eq_refl eq_refl (fun a => ltac:(discriminate))) as H.
  cbv zeta in H. fold out in H.
  destruct H as (H1 & _ & H3 & H4 & _).
  split; [exact H1 | split; [exact H3 | split; [exact H4 | reflexivity]]].
Defined.

End BootstrapProperties.

(** ** PaymentWorkflow *)

Section PayProperties.

Import Data Page World Pay.

Lemma nth_error_update_nth {A : Type} (f : A -> A) (l : list A) (i j : nat) :
  nth_error (update_nth i f l) j
  = if Nat.eqb i j then option_map f (nth_error l j) else nth_error l j.
Proof.
  revert i j; induction l as [|x l IH]; intros i j.
  - destruct i, j; simpl; try reflexivity; now destruct (Nat.eqb i j).
  - destruct i, j; simpl; try reflexivity. apply IH.
Qed.

Lemma widget_set_button (i j : nat) (f : PayButton -> PayButton)
  (w : World.t) :
  widget j (set_button i f w)
  = if Nat.eqb i j
    then option_map (fun wd => with_button (f (pay_button wd)) wd)
                    (widget j w)
    else widget j w.
Proof.
  unfold widget, set_button. cbn. apply nth_error_update_nth.
Qed.

Lemma find_amount_field_buttons (id : string) (i : nat)
  (f : PayButton -> PayButton) (ws : list PaymentWidget) :
  find_amount_field id
    (update_nth i (fun wd => with_button (f (pay_button wd)) wd) ws)
  = find_amount_field id ws.
Proof.
  revert i; induction ws as [|x ws IH]; intros i; [now destruct i|].
  destruct i; simpl.
  - reflexivity.
  - now rewrite IH.
Qed.






Lemma widget_pay_settle (i : nat) (outcome : Fetch PaymentResponse)
  (w : World.t) (wd : PaymentWidget) :
  widget i w = Some wd ->
  widget i (pay_settle i outcome w)
  = Some (with_button
            {| disabled := false;
               label :=
                 match App.fetch_result outcome with
                 | Returned (JsonObject _) => "Open again"
                 | _ => "Try again"
                 end |}
            wd).
Proof.
  intros Hw. unfold pay_settle.
  rewrite widget_set_button, Nat.eqb_refl.
  destruct (App.fetch_result outcome) as [[|r]|e].
  - unfold alert, widget. cbn [page].
    fold (widget i (set_button i (set_label "Try again") w)).
    rewrite widget_set_button, Nat.eqb_refl, Hw. reflexivity.
  - rewrite widget_set_button, Nat.eqb_refl.
    destruct (payment_url r) as [u|]; [destruct (Js.truthy_string u)|];
      unfold window_open, widget; cbn [page]; fold (widget i w);
      rewrite ?Hw; try reflexivity; unfold widget in Hw; now rewrite Hw.
  - unfold alert, widget. cbn [page].
    fold (widget i (set_button i (set_label "Try again") w)).
    rewrite widget_set_button, Nat.eqb_refl, Hw. reflexivity.
Qed.

(** C1, as the code has it.  When the payment-create call FAILS (network
    error, non-2xx status, unparsable body, or a [null] body whose member
    read throws) the handler alerts "Cannot start payment: " followed by
    the failure detail (the response text of a non-2xx answer), opens no
    window and leaves the button enabled and labelled "Try again"
    (Failed).  When the call SUCCEEDS with an object the handler alerts
    nothing and leaves the button enabled and labelled "Open again"
    (Succeeded), whether or not there is a [payment_url]; a window is
    opened exactly when [payment_url] is not empty. *)
Theorem pay_settles_by_outcome
  (i : nat) (w : World.t) (wd : PaymentWidget)
  (outcome : Fetch PaymentResponse)
  (Hw : widget i w = Some wd) :
  let w' := pay_settle i outcome w in
  let button := option_map pay_button (widget i w') in
  (forall e,
      App.fetch_result outcome = Thrown e
      \/ (App.fetch_result outcome = Returned JsonNull
          /\ e = App.null_member "payment_url") ->
      alerts w'
      = (alerts w ++ [("Cannot start payment: " ++ message e)%string])%list
      /\ opened w' = opened w
      /\ button = Some {| disabled := false; label := "Try again" |}
      /\ option_map phase_of button = Some (Some Failed))
  /\ (forall r,
        App.fetch_result outcome = Returned (JsonObject r) ->
        alerts w' = alerts w
        /\ opened w'
           = (opened w
              ++ (if Js.truthy (payment_url r)
                  then [Js.interpolate (payment_url r)] else []))%list
        /\ button = Some {| disabled := false; label := "Open again" |}
        /\ option_map phase_of button = Some (Some Succeeded))
  /\ (forall status body,
        outcome = HttpError status body -> body <> "" ->
        alerts w'
        = (alerts w ++ [("Cannot start payment: " ++ body)%string])%list).
Proof.
  intros w' button. subst button w'.
  rewrite (widget_pay_settle i outcome w wd Hw).
  split; [|split].
  - intros e [He|[He ->]]; unfold pay_settle; rewrite He; repeat split.
  - intros r Hr. unfold pay_settle. rewrite Hr.
    destruct (payment_url r) as [[|c u]|]; cbn; rewrite ?app_nil_r;
      repeat split.
  - intros status body -> Hb. unfold pay_settle. cbn.
    destruct body; [now elim Hb | reflexivity].
Qed.


Lemma pay_settles_by_outcome_witness :
  let w := pay_begin 0 (world (opening (start Fixture.blank_page)
                                       [Fixture.stars])) in
  alerts (pay_settle 0 (HttpError 402 "Insufficient funds") w)
  = ["Cannot start payment: Insufficient funds"].
Proof.
  intros w.
  apply (proj2 (proj2 (pay_settles_by_outcome 0 w
                         (with_button {| disabled := true;
                                         label := "Openingâ€¦" |}
                            (Render.payment_widget Fixture.stars))
                         (HttpError 402 "Insufficient funds") eq_refl))
           402 "Insufficient funds" eq_refl).
  discriminate.
Defined.

(** C1, as stated, fails: a response without [payment_url] shows no
    message and leaves the button in its succeeded state. *)
Lemma payment_without_url_reports_success :
  let w := world (opening (start Fixture.blank_page) [Fixture.stars]) in
  let w' := pay_attempt Fixture.env_ok 0 w in
  create_fetch Fixture.env_ok (payload (pay_begin 0 w) Fixture.stars)
  = Json (JsonObject {| payment_url := None |})
  /\ alerts w' = []
  /\ opened w' = []
  /\ option_map (fun wd => phase_of (pay_button wd)) (widget 0 w')
     = Some (Some Succeeded)
  /\ option_map (fun wd => phase_of (pay_button wd)) (widget 0 w')
     <> Some (Some Failed).
Proof.
  repeat split. discriminate.
Qed.

(** *** The guard of the pay button *)

Lemma pending_app (i j : nat) (r : PaymentRequest)
  (l : list (nat * PaymentRequest)) :
  pending i (l ++ [(j, r)])
  = (pending i l + if Nat.eqb i j then 1 else 0)%nat.
Proof.
  induction l as [|[k q] l IH]; simpl.
  - destruct (Nat.eqb i j); reflexivity.
  - destruct (Nat.eqb i k); rewrite IH; reflexivity.
Qed.

Lemma pending_settle_one (i j : nat) (l : list (nat * PaymentRequest)) :
  pending j (settle_one i l)
  = if Nat.eqb i j then Nat.pred (pending j l) else pending j l.
Proof.
  induction l as [|[k q] l IH]; simpl.
  - now destruct (Nat.eqb i j).
  - destruct (Nat.eqb_spec i k) as [->|Hik].
    + rewrite (Nat.eqb_sym j k).
      destruct (Nat.eqb k j); reflexivity.
    + simpl. destruct (Nat.eqb_spec j k) as [->|Hjk].
      * rewrite IH. destruct (Nat.eqb_spec i k); [contradiction|reflexivity].
      * rewrite IH. destruct (Nat.eqb i j); reflexivity.
Qed.

Lemma widget_pay_begin (i j : nat) (w : World.t) :
  widget j (pay_begin i w)
  = if Nat.eqb i j
    then option_map
           (with_button {| disabled := true; label := "Openingâ€¦" |})
           (widget j w)
    else widget j w.
Proof.
  unfold pay_begin. destruct (widget i w) as [wd|] eqn:Hw.
  - unfold log, widget at 1. cbn [page].
    fold (widget j (set_button i (set_label "Openingâ€¦")
                      (set_button i (set_disabled true) w))).
    rewrite !widget_set_button.
    destruct (Nat.eqb i j); [|reflexivity].
    now destruct (widget j w).
  - destruct (Nat.eqb_spec i j) as [<-|]; [now rewrite Hw | reflexivity].
Qed.

Lemma widget_pay_settle_other (i j : nat)
  (outcome : Fetch PaymentResponse) (w : World.t) :
  i <> j -> widget j (pay_settle i outcome w) = widget j w.
Proof.
  intros Hij. apply Nat.eqb_neq in Hij. unfold pay_settle.
  rewrite widget_set_button, Hij.
  destruct (App.fetch_result outcome) as [[|r]|e].
  - unfold alert, widget at 1. cbn [page].
    fold (widget j (set_button i (set_label "Try again") w)).
    now rewrite widget_set_button, Hij.
  - rewrite widget_set_button, Hij.
    destruct (payment_url r) as [u|]; [destruct (Js.truthy_string u)|];
      reflexivity.
  - unfold alert, widget at 1. cbn [page].
    fold (widget j (set_button i (set_label "Try again") w)).
    now rewrite widget_set_button, Hij.
Qed.

Lemma widget_edit_widget (i j : nat) (f : PaymentWidget -> PaymentWidget)
  (w : World.t) :
  widget j (edit_widget i f w)
  = if Nat.eqb i j then option_map f (widget j w) else widget j w.
Proof.
  unfold widget, edit_widget. cbn. apply nth_error_update_nth.
Qed.

Lemma guarded_opening (w : World.t) (methods : list PaymentMethod) :
  guarded (opening w methods).
Proof.
  intros i. unfold opening, widget, Render.renderPayments. cbn.
  rewrite card_of_items, nth_error_map.
  now destruct (nth_error methods i).
Qed.

Lemma guarded_step (s : Session) (ev : Event) :
  guarded s -> guarded (step s ev).
Proof.
  intros G. destruct ev as [i|i outcome|i v|i v]; cbn [step].
  - pose proof (G i) as Gi.
    destruct (widget i (world s)) as [wd|] eqn:Hw; [|exact G].
    destruct (disabled (pay_button wd)) eqn:Hd; [exact G|].
    intros j. cbn [world in_flight].
    rewrite widget_pay_begin, pending_app. specialize (G j).
    rewrite (Nat.eqb_sym j i).
    destruct (Nat.eqb_spec i j) as [<-|Hij].
    + rewrite Hw. cbn. rewrite Gi. reflexivity.
    + destruct (widget j (world s)); rewrite G; lia.
  - pose proof (G i) as Gi.
    destruct (pending i (in_flight s)) as [|n] eqn:Hp; [exact G|].
    destruct (widget i (world s)) as [wd|] eqn:Hw; [|discriminate].
    destruct (disabled (pay_button wd)) eqn:Hd; [|discriminate].
    intros j. cbn [world in_flight]. rewrite pending_settle_one.
    destruct (Nat.eqb_spec i j) as [<-|Hij].
    + rewrite (widget_pay_settle i outcome _ wd Hw). cbn.
      now rewrite Hp, Gi.
    + rewrite widget_pay_settle_other by assumption. apply G.
  - intros j. cbn [world in_flight]. rewrite widget_edit_widget.
    specialize (G j).
    destruct (Nat.eqb i j); [|exact G].
    destruct (widget j (world s)) as [wd|]; [|exact G].
    cbn. exact G.
  - intros j. cbn [world in_flight]. rewrite widget_edit_widget.
    specialize (G j).
    destruct (Nat.eqb i j); [|exact G].
    destruct (widget j (world s)) as [wd|]; [|exact G].
    cbn. exact G.
Qed.

Lemma guarded_run (s : Session) (evs : list Event) :
  guarded s -> guarded (run s evs).
Proof.
  revert s; induction evs as [|ev evs IH]; intros s G; [exact G|].
  apply IH. now apply guarded_step.
Qed.

(** C8.  In every state reachable from the rendered panel by clicks,
    settling requests and edits of the fields, each pay button is disabled
    exactly while one payment-create request of its own is in flight, so
    no button ever has two in flight: a click on an enabled button
    disables it and puts one request in flight (Submitting), a click on a
    disabled button changes nothing, and the settling of the request, as a
    success or as a failure, enables the button again. *)
Theorem pay_button_guards_requests
  (w : World.t) (methods : list PaymentMethod) (evs : list Event)
  (i : nat) :
  let s := run (opening w methods) evs in
  guarded s
  /\ (pending i (in_flight s) <= 1)%nat
  /\ (forall wd,
        widget i (world s) = Some wd ->
        disabled (pay_button wd) = false ->
        pending i (in_flight s) = 0%nat
        /\ exists wd',
             widget i (world (step s (Click i))) = Some wd'
             /\ disabled (pay_button wd') = true
             /\ phase_of (pay_button wd') = Some Submitting
             /\ pending i (in_flight (step s (Click i))) = 1%nat)
  /\ (forall wd outcome,
        widget i (world s) = Some wd ->
        disabled (pay_button wd) = true ->
        pending i (in_flight s) = 1%nat
        /\ step s (Click i) = s
        /\ exists wd',
             widget i (world (step s (Settle i outcome))) = Some wd'
             /\ disabled (pay_button wd') = false
             /\ pending i (in_flight (step s (Settle i outcome))) = 0%nat).
Proof.
  intros s.
  assert (G : guarded s) by (apply guarded_run, guarded_opening).
  split; [exact G|]. split; [|split].
  - specialize (G i). destruct (widget i (world s)) as [wd|];
      [destruct (disabled (pay_button wd))|]; lia.
  - intros wd Hw Hd. pose proof (G i) as Gi. rewrite Hw, Hd in Gi.
    split; [exact Gi|].
    cbn [step]. rewrite Hw, Hd. cbn [world in_flight].
    rewrite widget_pay_begin, Nat.eqb_refl, Hw, pending_app, Nat.eqb_refl, Gi.
    eexists. split; [reflexivity|]. repeat split.
  - intros wd outcome Hw Hd. pose proof (G i) as Gi. rewrite Hw, Hd in Gi.
    split; [exact Gi|]. split.
    + cbn [step]. now rewrite Hw, Hd.
    + cbn [step]. rewrite Gi. cbn [world in_flight].
      rewrite (widget_pay_settle i outcome _ wd Hw), pending_settle_one,
        Nat.eqb_refl, Gi.
      eexists. split; [reflexivity|]. split; reflexivity.
Qed.

(** Two clicks in a row issue one request; after it settles a third click
    issues the next. *)
Example double_click_sends_once :
  let s0 := opening (start Fixture.blank_page) [Fixture.stars] in
  let failure := HttpError 500 "" in
  length (requests (world (run s0 [Click 0; Click 0]))) = 1%nat
  /\ length (requests (world (run s0 [Click 0; Click 0; Settle 0 failure;
                                      Click 0]))) = 2%nat
  /\ alerts (world (run s0 [Click 0; Click 0; Settle 0 failure]))
     = ["Cannot start payment: Request failed (500)"].
Proof.
  repeat split.
Qed.

End PayProperties.

(* ===================================================================== *)
(** * Part III: further properties of the code *)
(* ===================================================================== *)

(** ** Further properties: the pure helpers *)

Section HelperProperties.

Import World App Platform.

(** X1.  [readInitData] returns the host token when that is not empty,
    else the query parameter when that is not empty, else the empty
    string; the query id the host reports never changes the result. *)
Theorem readInitData_precedence (env : Env) :
  let host := match tg env with Some t => tg_initData t | None => None end in
  readInitData env
  = if Js.truthy host then Js.interpolate host
    else Js.or_default (query_initData env) "".
Proof.
  unfold App.readInitData.
  destruct (tg env) as [t|]; cbn.
  - destruct (tg_initData t) as [[|c s]|], (tg_query_id t) as [[|d q]|];
      reflexivity.
  - reflexivity.
Qed.

Lemma toLowerCase_app (a b : string) :
  Js.toLowerCase (a ++ b) = Js.toLowerCase a ++ Js.toLowerCase b.
Proof.
  induction a as [|c a IH]; simpl; [reflexivity | now rewrite IH].
Qed.

Lemma test_any_word (pats : list string) (a w b : string) :
  In (Js.toLowerCase w) pats ->
  Js.test_any pats (Js.toLowerCase (a ++ w ++ b)) = true.
Proof.
  intros Hin. unfold Js.test_any. apply existsb_exists.
  exists (Js.toLowerCase w). split; [assumption|].
  apply includes_app.
  exists (Js.toLowerCase a), (Js.toLowerCase b).
  now rewrite !toLowerCase_app.
Qed.

(** X2.  A user agent in which one of the words iphone, ipad, ipod occurs
    anywhere, in any mix of ASCII upper and lower case, is classified
    [ios], whatever else it contains. *)
Theorem detectPlatform_ios_word_anywhere (a w b : string)
  (Hw : In (Js.toLowerCase w) ios_patterns) :
  detectPlatform (a ++ w ++ b) = "ios".
Proof.
  unfold detectPlatform.
  now rewrite (test_any_word ios_patterns a w b Hw).
Qed.

Lemma detectPlatform_ios_word_anywhere_witness :
  detectPlatform ("Mozilla/5.0 (" ++ "iPad" ++ "; CPU OS 17_0) Android Linux")
  = "ios".
Proof.
  apply (detectPlatform_ios_word_anywhere "Mozilla/5.0 (" "iPad"
           "; CPU OS 17_0) Android Linux").
  simpl. tauto.
Defined.

(** X3.  A user agent that names Android, in any mix of case, is
    classified [ios] or [android]: the later rows, and so the [androidTV]
    tag, are out of reach for it. *)
Theorem detectPlatform_android_word (a w b : string)
  (Hw : Js.toLowerCase w = "android") :
  detectPlatform (a ++ w ++ b) = "ios"
  \/ detectPlatform (a ++ w ++ b) = "android".
Proof.
  unfold detectPlatform.
  rewrite (test_any_word android_patterns a w b)
    by (rewrite Hw; now left).
  destruct (Js.test_any ios_patterns _); [now left | now right].
Qed.

Lemma detectPlatform_android_word_witness :
  detectPlatform ("Mozilla/5.0 (Linux; " ++ "Android" ++ " 12; BRAVIA TV)")
  = "android".
Proof.
  destruct (detectPlatform_android_word "Mozilla/5.0 (Linux; " "Android"
              " 12; BRAVIA TV)" eq_refl) as [H|H].
  - discriminate H.
  - exact H.
Defined.

End HelperProperties.

Section ReadbackProperties.

Import Money Readback.









End ReadbackProperties.

(** ** Further properties: the renderers *)

Section RendererProperties.

Import Data Page Render.

Lemma truthy_string_nonempty (s : string) :
  Js.truthy_string s = true <-> s <> "".
Proof.
  destruct s; simpl; split; congruence.
Qed.

Lemma or_default_nonempty (a : option string) (d : string) :
  d <> "" -> Js.or_default a d <> "".
Proof.
  intros Hd. destruct a as [[|c s]|]; simpl; congruence.
Qed.

Lemma append_nonempty_r (a b : string) : b <> "" -> a ++ b <> "".
Proof.
  intros Hb. destruct a; simpl; [assumption | discriminate].
Qed.

Lemma dec_nonempty (n : Z) : Js.dec n <> "".
Proof.
  unfold Js.dec, NilZero.string_of_uint.
  destruct (N.to_uint (Z.to_N n)); simpl; discriminate.
Qed.

Lemma string_of_number_nonempty (n : Z) : Num.string_of_number n <> "".
Proof.
  unfold Num.string_of_number. apply append_nonempty_r.
  unfold Num.to_string.
  destruct (Num.of_Z (Z.abs n)) as [m e|]; [|discriminate].
  destruct (Num.at_least _ _); [|apply dec_nonempty].
  unfold Num.exponential.
  destruct (Num.strip_zeros _) as [|d [|d' rest]] eqn:E.
  - apply dec_nonempty.
  - discriminate.
  - discriminate.
Qed.

Lemma formatAmount_nonempty (v : Js.value) (c : option string) :
  Money.formatAmount v c <> "".
Proof.
  destruct v; try discriminate.
  unfold Money.formatAmount. apply append_nonempty_r. discriminate.
Qed.

(** X5.  [renderStatusCard] never leaves a text of the status area
    blank: the title, the meta line, the badge and the values of the four
    highlights (Balance, Traffic, Devices, Status, in that order) are
    non-empty for every snapshot, each missing field being replaced by its
    fallback. *)
Theorem status_card_never_blank
  (intl : string -> option string) (s : Snapshot) (p : Page.t) :
  let st := status (renderStatusCard intl s p) in
  subscriptionTitle st <> ""
  /\ subscriptionMeta st <> ""
  /\ badge_text (statusBadge st) <> ""
  /\ map hl_label (highlightGrid st)
     = ["Balance"; "Traffic"; "Devices"; "Status"]
  /\ Forall (fun h => hl_value h <> "") (highlightGrid st).
Proof.
  cbn. repeat split.
  - apply or_default_nonempty. discriminate.
  - destruct (Js.truthy_string (Js.join _ _)) eqn:E;
      [now apply truthy_string_nonempty | discriminate].
  - apply or_default_nonempty. discriminate.
  - repeat constructor; cbn [hl_value].
    + apply formatAmount_nonempty.
    + apply or_default_nonempty. discriminate.
    + destruct (connected_devices_count s) as [n|]; [|discriminate].
      destruct (n =? 0)%Z; [discriminate|].
      apply string_of_number_nonempty.
    + apply or_default_nonempty. discriminate.
Qed.

(** X6.  Rendering the status card a second time from the same snapshot
    changes nothing when the snapshot says whether the subscription is
    missing; when it does not, each rendering flips the danger class of
    the badge, so the second one brings back the class the page started
    with, and nothing else differs. *)
Theorem renderStatusCard_again
  (intl : string -> option string) (s : Snapshot) (p : Page.t) :
  let once := renderStatusCard intl s p in
  let twice := renderStatusCard intl s once in
  (forall b, of_user subscription_missing (user s) = Some b ->
             twice = once)
  /\ (of_user subscription_missing (user s) = None ->
      badge_danger (statusBadge (status once))
      = negb (badge_danger (statusBadge (status p)))
      /\ badge_danger (statusBadge (status twice))
         = badge_danger (statusBadge (status p))
      /\ twice
         = set_status
             {| subscriptionTitle := subscriptionTitle (status once);
                subscriptionMeta := subscriptionMeta (status once);
                statusBadge :=
                  {| badge_text := badge_text (statusBadge (status once));
                     badge_success :=
                       badge_success (statusBadge (status once));
                     badge_danger := badge_danger (statusBadge (status p))
                  |};
                highlightGrid := highlightGrid (status once) |}
             once).
Proof.
  cbn. split.
  - intros b Hb. unfold renderStatusCard. cbn. rewrite Hb. reflexivity.
  - intros Hn. unfold renderStatusCard. cbn. rewrite Hn. cbn.
    rewrite negb_involutive. repeat split.
Qed.

(** X7.  A reload replaces what the account renderers drew: running the
    five renderers of [loadSubscription] on a snapshot [s] after they ran
    on any snapshot [s0] gives the sections, the title, the meta line, the
    badge text and the highlights that running them on [s] alone gives,
    and the payments card, the brand and the theme of the page are not
    touched; the whole page is the same as soon as [s] says whether the
    subscription is missing. *)
Theorem reload_replaces_rendering
  (intl : string -> option string) (loc : I18n.Locale)
  (cfg : option AppConfig) (tag : string) (s0 s : Snapshot) (p : Page.t) :
  let render s p :=
    renderPlatformGuide loc cfg tag s
      (renderTransactions intl s
         (renderDevices s (renderActions s (renderStatusCard intl s p)))) in
  let again := render s (render s0 p) in
  actions again = actions (render s p)
  /\ devices again = devices (render s p)
  /\ Page.transactions again = Page.transactions (render s p)
  /\ platformGuide again = platformGuide (render s p)
  /\ subscriptionTitle (status again) = subscriptionTitle (status (render s p))
  /\ subscriptionMeta (status again) = subscriptionMeta (status (render s p))
  /\ badge_text (statusBadge (status again))
     = badge_text (statusBadge (status (render s p)))
  /\ highlightGrid (status again) = highlightGrid (status (render s p))
  /\ payments again = payments p
  /\ brand again = brand p
  /\ theme again = theme p
  /\ (forall b, of_user subscription_missing (user s) = Some b ->
                again = render s p).
Proof.
  assert (F : forall s1, exists c, forall q : Page.t,
             renderPlatformGuide loc cfg tag s1 q = set_platformGuide c q).
  { intros s1. unfold renderPlatformGuide.
    destruct (match cfg with
              | Some c => platform_steps tag (platforms c)
              | None => None
              end) as [[|c0 r0]|]; eexists; intros q; reflexivity. }
  destruct (F s) as [c Hc]. destruct (F s0) as [c0 Hc0].
  cbv beta zeta. rewrite !Hc, !Hc0. cbn.
  repeat split.
  intros b Hb. unfold renderStatusCard. cbn. rewrite Hb. reflexivity.
Qed.

(** X8.  The link list shows exactly these links, each once: the
    subscription URL, the Happ link and the Happ crypto link when they are
    not empty, and every element of [links], an empty string among them
    included; the card is shown exactly when there is at least one. *)
Theorem action_links_exactly (s : Snapshot) (p : Page.t) (y : string) :
  let card := actions (renderActions s p) in
  (In y (items card) <->
     (subscription_url s = Some y /\ y <> "")
     \/ (happ_link s = Some y /\ y <> "")
     \/ (happ_crypto_link s = Some y /\ y <> "")
     \/ In y (match links s with Some l => l | None => [] end))
  /\ NoDup (items card)
  /\ (hidden card = false <-> exists z, In z (items card)).
Proof.
  unfold renderActions. cbn [actions set_actions].
  rewrite card_of_items.
  destruct (link_set_spec s) as [Hnd Hin].
  split; [apply Hin|]. split; [exact Hnd|].
  destruct (link_set s) as [|z l]; simpl.
  - split; [discriminate | intros [z []]].
  - split; [intros _; exists z; now left | reflexivity].
Qed.

Lemma text_or_nonempty (v : Js.value) (d : string) :
  d <> "" -> I18n.text_or v d <> "".
Proof.
  intros Hd. destruct v as [| | |n|[|c t]]; simpl; congruence.
Qed.

(** X9.  The platform guide is hidden, with nothing inside, when the
    config has no entry or an empty entry for the platform tag.
    Otherwise it is shown and holds the three step blocks in their fixed
    order, each with the resolved description of the matching step of the
    FIRST guide entry (empty when there is none), and after them the URL
    hint exactly when the subscription URL is not empty; only the install
    block carries buttons, one per button of the install step of that
    entry, with its link and its resolved label, which is never empty.
    Nothing of the card depends on the other entries or on the rest of the
    config. *)
Theorem platform_guide_shape
  (loc : I18n.Locale) (cfg : AppConfig) (tag : string) (s : Snapshot)
  (p : Page.t) :
  let card := platformGuide (renderPlatformGuide loc (Some cfg) tag s p) in
  let text step :=
    I18n.text_or (I18n.resolveI18n loc (description_of step)) "" in
  match platform_steps tag (platforms cfg) with
  | Some (client :: _) =>
      let buttons :=
        match installationStep client with
        | Some st => step_buttons st
        | None => []
        end in
      let anchors :=
        map (fun b => (buttonLink b,
                       I18n.text_or (I18n.resolveI18n loc (buttonText b))
                                    "Open"))
            buttons in
      hidden card = false
      /\ items card
         = ([StepBlock "Install the app"
                       (text (installationStep client)) anchors;
             StepBlock "Add subscription"
                       (text (addSubscriptionStep client)) [];
             StepBlock "Connect & browse"
                       (text (connectAndUseStep client)) []]
            ++ (if Js.truthy (subscription_url s)
                then [UrlHint (Js.interpolate (subscription_url s))]
                else []))%list
      /\ Forall (fun a => snd a <> "") anchors
      /\ forall (cfg' : AppConfig) (tag' : string) (p' : Page.t) rest',
           platform_steps tag' (platforms cfg') = Some (client :: rest') ->
           platformGuide (renderPlatformGuide loc (Some cfg') tag' s p')
           = card
  | _ => hidden card = true /\ items card = []
  end.
Proof.
  unfold renderPlatformGuide.
  destruct (platform_steps tag (platforms cfg)) as [[|client rest]|];
    cbn; [now split| |now split].
  split; [reflexivity|]. split; [|split].
  - unfold guide_block. f_equal.
    destruct (subscription_url s) as [[|c u]|]; reflexivity.
  - apply Forall_forall. intros a Ha. apply in_map_iff in Ha.
    destruct Ha as [b [<- _]]. cbn. apply text_or_nonempty. discriminate.
  - intros cfg' tag' p' rest' H. rewrite H. reflexivity.
Qed.

End RendererProperties.

(** ** Further properties: loaders and bootstrap *)

Section LoaderProperties.

Import Data Page World App.

(** X10.  [fetchJson] issues exactly one request whatever the answer and
    touches nothing else; it returns a value exactly when the answer is a
    2xx response with a JSON body; and for a non-2xx answer it throws an
    [Error] whose message is the response text, or "Request failed
    (status)" when that text is empty, so the message is never empty. *)
Theorem fetchJson_outcomes
  {A : Type} (req : Request) (outcome : Fetch A) (w : World.t) :
  requests (snd (fetchJson req outcome w)) = (requests w ++ [req])%list
  /\ page (snd (fetchJson req outcome w)) = page w
  /\ alerts (snd (fetchJson req outcome w)) = alerts w
  /\ (forall r, fst (fetchJson req outcome w) = Returned r
                <-> outcome = Json r)
  /\ (forall status body, outcome = HttpError status body ->
        exists e,
          fst (fetchJson req outcome w) = Thrown e
          /\ exn_name e = "Error"
          /\ message e <> ""
          /\ (body <> "" -> message e = body)
          /\ (body = "" ->
              message e
              = "Request failed (" ++ Js.string_of_int status ++ ")")).
Proof.
  repeat split.
  - destruct outcome; cbn; intros H; try discriminate. now injection H as ->.
  - intros ->. reflexivity.
  - intros status body ->. eexists. split; [reflexivity|].
    cbn. destruct body as [|c b]; cbn; repeat split;
      try discriminate; try reflexivity; intros H; now elim H.
Qed.

Lemma or_default_idem (a : option string) (d : string) :
  Js.or_default a (Js.or_default a d) = Js.or_default a d.
Proof.
  now destruct a as [[|c s]|].
Qed.

(** X11.  The assignments of [loadConfig] leave the brand title and the
    support link non-empty for every config document (missing fields fall
    back to "Bedolaga VPN" and "https://t.me"), keep the support text and
    the logo of the markup when the config gives none, touch nothing but
    the brand and [appState.config], and applying the same document twice
    is the same as applying it once. *)
Theorem apply_config_defaults (doc : option ConfigDoc) (w : World.t) :
  let w' := apply_config doc w in
  brandTitle (brand (page w')) <> ""
  /\ supportLink (brand (page w')) <> ""
  /\ (Js.truthy (of_branding brand_description (config_of doc)) = false ->
      supportCopy (brand (page w')) = supportCopy (brand (page w)))
  /\ (Js.truthy (of_branding logoUrl (config_of doc)) = false ->
      brandLogo_image (brand (page w')) = brandLogo_image (brand (page w))
      /\ brandLogo_text (brand (page w')) = brandLogo_text (brand (page w)))
  /\ page w' = set_brand (brand (page w')) (page w)
  /\ config (appState w') = Some (config_of doc)
  /\ requests w' = requests w
  /\ apply_config doc w' = w'.
Proof.
  cbn.
  split; [apply or_default_nonempty; discriminate|].
  split; [apply or_default_nonempty; discriminate|].
  split.
  { intros H. destruct (of_branding brand_description (config_of doc))
      as [[|c s]|]; simpl in *; congruence. }
  split; [intros ->; now split|].
  split; [reflexivity|]. split; [reflexivity|]. split; [reflexivity|].
  unfold apply_config, apply_branding. cbn.
  rewrite !or_default_idem.
  destruct (Js.truthy (of_branding logoUrl (config_of doc)));
    reflexivity.
Qed.

End LoaderProperties.

Section BootstrapFurther.

Import Data Page World App.

Lemma renderPlatformGuide_sets_card (loc : I18n.Locale)
  (cfg : option AppConfig) (tag : string) (s : Snapshot) :
  exists c, forall q : Page.t,
    Render.renderPlatformGuide loc cfg tag s q = set_platformGuide c q.
Proof.
  unfold Render.renderPlatformGuide.
  destruct (match cfg with
            | Some c => Render.platform_steps tag (platforms c)
            | None => None
            end) as [[|c0 r0]|]; eexists; intros q; reflexivity.
Qed.

(** The calls a bootstrap pass makes, in order. *)
Lemma bootstrap_summary (env : Env) (w : World.t) :
  let out := bootstrap env w in
  let tok := readInitData env in
  requests (snd out)
  = (requests w
     ++ GetConfig
        :: match config_fetch env with
           | ConfigRejected _ => []
           | ConfigBody _ =>
               if Js.truthy_string tok
               then PostSubscription tok
                    :: match fetch_result (subscription_fetch env tok) with
                       | Returned (JsonObject _) => [PostMethods tok]
                       | _ => []
                       end
               else []
           end)%list
  /\ alerts (snd out) = alerts w
  /\ opened (snd out) = opened w
  /\ initData (appState (snd out)) = tok
  /\ platform (appState (snd out)) = Platform.detectPlatform (userAgent env)
  /\ theme (page (snd out)) = theme (setTheme env None (page w))
  /\ (forall e, fst out = Thrown e <-> config_fetch env = ConfigRejected e).
Proof.
  cbv zeta.
  destruct (config_fetch env) as [e|doc] eqn:Hc.
  - rewrite (bootstrap_config_rejected env w e Hc). cbn.
    repeat split; congruence.
  - destruct (Js.truthy_string (readInitData env)) eqn:Ht.
    + rewrite (bootstrap_with_token env w doc Hc Ht).
      unfold try_catch, loadSubscription, bind, get_appState, fetchJson.
      cbn.
      destruct (fetch_result (subscription_fetch env (readInitData env)))
        as [[|s]|e]; cbn.
      * rewrite <- !app_assoc. repeat split; discriminate.
      * destruct (renderPlatformGuide_sets_card (locale env)
                    (Some (config_of doc))
                    (Platform.detectPlatform (userAgent env)) s)
          as [c Hg].
        rewrite !Hg.
        unfold loadPayments, try_catch, bind, get_appState, fetchJson.
        cbn.
        destruct (fetch_result (methods_fetch env (readInitData env)))
          as [[|d]|e]; cbn; rewrite <- !app_assoc;
          repeat split; discriminate.
      * rewrite <- !app_assoc. repeat split; discriminate.
    + assert (He : readInitData env = "")
        by (destruct (readInitData env); [reflexivity | discriminate]).
      rewrite (bootstrap_no_token env w doc Hc He). cbn.
      rewrite He. repeat split; discriminate.
Qed.


(** X12.  Every bootstrap pass issues its network calls in one fixed
    order and each at most once: the config load first, then, only if the
    config fetch did not reject and a token is resolvable, the account
    load, then, only if the account load gave an object, the
    payment-methods load; the payment-create endpoint is never called. *)
Theorem bootstrap_call_order (env : Env) (w : World.t) :
  let tok := readInitData env in
  exists calls,
    requests (snd (bootstrap env w)) = (requests w ++ calls)%list
    /\ calls
       = GetConfig
         :: match config_fetch env with
            | ConfigRejected _ => []
            | ConfigBody _ =>
                if Js.truthy_string tok
                then PostSubscription tok
                     :: match fetch_result (subscription_fetch env tok) with
                        | Returned (JsonObject _) => [PostMethods tok]
                        | _ => []
                        end
                else []
            end
    /\ (exists rest,
          [GetConfig; PostSubscription tok; PostMethods tok]
          = (calls ++ rest)%list)
    /\ forall payload, ~ In (PostCreate payload) calls.
Proof.
  intros tok. eexists. split; [apply (bootstrap_summary env w)|].
  split; [reflexivity|]. fold tok.
  destruct (config_fetch env) as [e|doc].
  - split; [now eexists|]. intros q [H|[]]. discriminate.
  - destruct (Js.truthy_string tok).
    + destruct (fetch_result (subscription_fetch env tok)) as [[|s]|e].
      * split; [now eexists|]. intros q [H|[H|[]]]; discriminate.
      * split; [now exists []|]. intros q [H|[H|[H|[]]]]; discriminate.
      * split; [now eexists|]. intros q [H|[H|[]]]; discriminate.
    + split; [now eexists|]. intros q [H|[]]. discriminate.
Qed.

(** X13.  The only exception that leaves [bootstrap] is the rejection of
    the config fetch: [bootstrap] throws [e] exactly when that fetch
    rejects with [e], and returns normally in every other pass, whatever
    the account and payment-methods loads do. *)
Theorem bootstrap_throws_only_config (env : Env) (w : World.t) :
  (forall e, fst (bootstrap env w) = Thrown e
             <-> config_fetch env = ConfigRejected e)
  /\ (forall doc, config_fetch env = ConfigBody doc ->
                  fst (bootstrap env w) = Returned tt).
Proof.
  pose proof (bootstrap_summary env w) as H. cbv zeta in H.
  destruct H as (_ & _ & _ & _ & _ & _ & H).
  split; [exact H|].
  intros doc Hc. destruct (fst (bootstrap env w)) as [[]|e] eqn:E.
  - reflexivity.
  - pose proof (proj1 (H e) eq_refl). congruence.
Qed.

(** X14.  Whatever the pass does, [bootstrap] shows no alert and opens no
    window, leaves in [appState] the token [readInitData] resolved and the
    platform [detectPlatform] found, and leaves the page in the light
    theme when the host reports the light colour scheme and in the dark
    theme otherwise. *)
Theorem bootstrap_is_silent (env : Env) (w : World.t) :
  let w' := snd (bootstrap env w) in
  alerts w' = alerts w
  /\ opened w' = opened w
  /\ initData (appState w') = readInitData env
  /\ platform (appState w') = Platform.detectPlatform (userAgent env)
  /\ data_theme (theme (page w'))
     = if match tg env with
          | Some t =>
              match tg_colorScheme t with
              | Some c => String.eqb c "light"
              | None => false
              end
          | None => false
          end
       then "light" else "dark".
Proof.
  pose proof (bootstrap_summary env w) as H. cbv zeta in H.
  destruct H as (_ & H1 & H2 & H3 & H4 & H5 & _).
  cbv zeta. rewrite H1, H2, H3, H4, H5. repeat split.
  cbn. destruct (tg env) as [t|]; [|reflexivity].
  destruct (tg_colorScheme t) as [c|]; [|reflexivity].
  now destruct (String.eqb c "light").
Qed.

(** X16.  The theme toggle: a click sets the theme to dark when it is
    light and to light otherwise and changes nothing else on the page but
    the theme; after the [setTheme] of [bootstrap], two clicks in a row
    give back the very page they started from. *)
Theorem toggleTheme_alternates (env : Env) (p : Page.t) :
  let q := setTheme env None p in
  data_theme (theme (Handlers.toggleTheme env p))
  = (if String.eqb (data_theme (theme p)) "light" then "dark" else "light")
  /\ Handlers.toggleTheme env p
     = set_theme (theme (Handlers.toggleTheme env p)) p
  /\ data_theme (theme (Handlers.toggleTheme env q))
     <> data_theme (theme q)
  /\ Handlers.toggleTheme env (Handlers.toggleTheme env q) = q.
Proof.
  cbv zeta. split; [|split; [reflexivity|]].
  - unfold Handlers.toggleTheme, setTheme. cbn.
    now destruct (String.eqb (data_theme (theme p)) "light").
  - unfold Handlers.toggleTheme, setTheme. cbn.
    destruct (tg env) as [t|]; cbn.
    + destruct (tg_colorScheme t) as [c|]; cbn;
        [destruct (String.eqb c "light"); cbn|];
        (split; [discriminate|]);
        destruct (tg_themeParams t) as [[bg|]|]; cbn;
          try reflexivity; destruct (Js.truthy_string bg); reflexivity.
    + split; [discriminate | reflexivity].
Qed.

End BootstrapFurther.

(** ** Further properties: the payment panel and the link buttons *)

Section PanelProperties.

Import Data Page World Pay.

Lemma find_option_field_buttons (id : string) (i : nat)
  (f : PayButton -> PayButton) (ws : list PaymentWidget) :
  find_option_field id
    (update_nth i (fun wd => with_button (f (pay_button wd)) wd) ws)
  = find_option_field id ws.
Proof.
  revert i; induction ws as [|x ws IH]; intros i; [now destruct i|].
  destruct i; simpl.
  - reflexivity.
  - now rewrite IH.
Qed.

Lemma option_id_eqb (a b : string) :
  String.eqb ("option-" ++ a) ("option-" ++ b) = String.eqb a b.
Proof. reflexivity. Qed.

Lemma find_option_field_rendered (methods : list PaymentMethod)
  (m : PaymentMethod) :
  NoDup (map id methods) -> In m methods -> options m <> [] ->
  find_option_field ("option-" ++ id m) (map Render.payment_widget methods)
  = Some (Render.option_select m).
Proof.
  induction methods as [|m0 rest IH]; intros Hnd Hin Hopt; [contradiction|].
  simpl in Hnd. inversion Hnd as [|? ? Hnotin Hnd']; subst.
  cbn [map find_option_field Render.payment_widget option_field].
  destruct Hin as [->|Hin].
  - destruct (options m) as [|o os] eqn:E; [now elim Hopt|].
    cbn [Render.option_select select_id].
    now rewrite String.eqb_refl.
  - assert (Hne : id m0 <> id m).
    { intros E. apply Hnotin. rewrite E. now apply in_map. }
    destruct (options m0) as [|o os].
    + now apply IH.
    + cbn [Render.option_select select_id].
      rewrite option_id_eqb.
      apply String.eqb_neq in Hne. rewrite Hne. now apply IH.
Qed.

(** The payload does not depend on the buttons. *)
Lemma payload_set_button (i : nat) (f : PayButton -> PayButton)
  (w : World.t) (m : PaymentMethod) :
  payload (set_button i f w) m = payload w m.
Proof.
  unfold payload, set_button.
  cbn [page set_page payments set_payments items appState].
  now rewrite find_amount_field_buttons, find_option_field_buttons.
Qed.

Lemma pay_begin_request (i : nat) (w : World.t) (wd : PaymentWidget) :
  widget i w = Some wd ->
  requests (pay_begin i w)
  = (requests w ++ [PostCreate (payload w (widget_method wd))])%list.
Proof.
  intros Hw. unfold pay_begin. rewrite Hw.
  cbn [log requests]. now rewrite !payload_set_button.
Qed.

Lemma payload_pay_begin (i : nat) (w : World.t) (m : PaymentMethod) :
  payload (pay_begin i w) m = payload w m.
Proof.
  unfold pay_begin. destruct (widget i w) as [wd|]; [|reflexivity].
  unfold log, payload at 1. cbn [page appState].
  fold (payload (set_button i (set_label "Openingâ€¦")
                   (set_button i (set_disabled true) w)) m).
  now rewrite !payload_set_button.
Qed.

(** X17.  For a method with options, in a list of methods with distinct
    ids, a click on its pay button while the option list is as rendered
    sends the id of the FIRST option; and a method without options sends
    no option at all. *)
Theorem default_option_is_first
  (w : World.t) (methods : list PaymentMethod) (i : nat)
  (m : PaymentMethod)
  (Hid : NoDup (map id methods))
  (Hi : nth_error methods i = Some m) :
  exists r,
    requests (pay_begin i (world (opening w methods)))
    = (requests w ++ [PostCreate r])%list
    /\ req_method r = id m
    /\ req_initData r = initData (appState w)
    /\ req_option r
       = match options m with
         | first :: _ => Some (option_id first)
         | [] => None
         end.
Proof.
  assert (Hw : widget i (world (opening w methods))
               = Some (Render.payment_widget m)).
  { unfold widget, opening, Render.renderPayments. cbn.
    rewrite card_of_items. now apply map_nth_error. }
  rewrite (pay_begin_request i _ _ Hw).
  eexists. split; [reflexivity|].
  cbn [widget_method Render.payment_widget].
  unfold payload. cbn [req_method req_initData req_option].
  repeat split.
  destruct (options m) as [|o os] eqn:E; [reflexivity|].
  unfold opening, Render.renderPayments.
  cbn [world page set_page payments set_payments].
  rewrite card_of_items.
  rewrite find_option_field_rendered;
    [| assumption | now apply nth_error_In with i | now rewrite E].
  unfold Render.option_select. cbn [select_value]. now rewrite E.
Qed.

Lemma default_option_is_first_witness :
  let m := {| id := "cryptobot"; name := None; icon := None;
              requires_amount := false; min_amount_kopeks := None;
              amount_step_kopeks := None; currency := Js.Undefined;
              options := [ {| option_id := "usdt"; option_title := None |};
                           {| option_id := "ton"; option_title := None |} ]
           |} in
  exists r,
    requests (pay_begin 1 (world (opening (start Fixture.blank_page)
                                    [Fixture.stars; m])))
    = [PostCreate r]
    /\ req_option r = Some "usdt".
Proof.
  intros m.
  destruct (default_option_is_first (start Fixture.blank_page)
              [Fixture.stars; m] 1 m) as (r & H1 & _ & _ & H4).
  - repeat constructor; simpl; intuition discriminate.
  - reflexivity.
  - exists r. split; [exact H1 | exact H4].
Defined.





Lemma payload_pay_settle (i : nat) (outcome : Fetch PaymentResponse)
  (w : World.t) (m : PaymentMethod) :
  payload (pay_settle i outcome w) m = payload w m.
Proof.
  unfold pay_settle. rewrite payload_set_button.
  destruct (App.fetch_result outcome) as [[|r]|e].
  - unfold alert, payload. cbn [page appState].
    fold (payload (set_button i (set_label "Try again") w) m).
    apply payload_set_button.
  - rewrite payload_set_button.
    destruct (payment_url r) as [u|]; [destruct (Js.truthy_string u)|];
      reflexivity.
  - unfold alert, payload. cbn [page appState].
    fold (payload (set_button i (set_label "Try again") w) m).
    apply payload_set_button.
Qed.

Lemma requests_pay_settle (i : nat) (outcome : Fetch PaymentResponse)
  (w : World.t) :
  requests (pay_settle i outcome w) = requests w.
Proof.
  unfold pay_settle. cbn.
  destruct (App.fetch_result outcome) as [[|r]|e]; cbn; try reflexivity.
  destruct (payment_url r) as [u|]; [destruct (Js.truthy_string u)|];
    reflexivity.
Qed.

(** X19.  A retry repeats the request: when an attempt has settled, as a
    failure or as a success, and nothing was typed or chosen in between,
    the next click on the same button sends a request equal to the one
    before. *)
Theorem retry_repeats_request
  (i : nat) (w : World.t) (wd : PaymentWidget)
  (outcome : Fetch PaymentResponse)
  (Hw : widget i w = Some wd) :
  requests (pay_begin i (pay_settle i outcome (pay_begin i w)))
  = (requests w
     ++ [PostCreate (payload w (widget_method wd));
         PostCreate (payload w (widget_method wd))])%list.
Proof.
  assert (H1 : widget i (pay_begin i w)
               = Some (with_button {| disabled := true;
                                      label := "Openingâ€¦" |} wd)).
  { now rewrite widget_pay_begin, Nat.eqb_refl, Hw. }
  pose proof (widget_pay_settle i outcome _ _ H1) as H2.
  rewrite (pay_begin_request i _ _ H2).
  rewrite requests_pay_settle, payload_pay_settle.
  rewrite (pay_begin_request i _ _ Hw).
  cbn [widget_method with_button].
  rewrite <- app_assoc. cbn [app].
  now rewrite payload_pay_begin.
Qed.

Lemma retry_repeats_request_witness :
  let w := world (opening (start Fixture.blank_page)
                          [Fixture.topup (Some 15000)]) in
  exists r,
    requests (pay_begin 0 (pay_settle 0 (HttpError 502 "") (pay_begin 0 w)))
    = [PostCreate r; PostCreate r]
    /\ req_amountRubles r = Some (inject_Z 15000 / 100)%Q.
Proof.
  intros w. eexists. split.
  - apply (retry_repeats_request 0 w
             (Render.payment_widget (Fixture.topup (Some 15000)))
             (HttpError 502 "") eq_refl).
  - reflexivity.
Defined.


Lemma method_of_set_button (i j : nat) (f : PayButton -> PayButton)
  (w : World.t) :
  option_map widget_method (widget j (set_button i f w))
  = option_map widget_method (widget j w).
Proof.
  rewrite widget_set_button.
  destruct (Nat.eqb i j); [|reflexivity]. now destruct (widget j w).
Qed.

Lemma method_of_step (s : Session) (ev : Event) (j : nat) :
  option_map widget_method (widget j (world (step s ev)))
  = option_map widget_method (widget j (world s)).
Proof.
  destruct ev as [i|i outcome|i v|i v]; cbn [step].
  - destruct (widget i (world s)) as [wd|] eqn:Hw; [|reflexivity].
    destruct (disabled (pay_button wd)); [reflexivity|].
    cbn [world]. rewrite widget_pay_begin.
    destruct (Nat.eqb i j); [|reflexivity]. now destruct (widget j (world s)).
  - destruct (pending i (in_flight s)); [reflexivity|]. cbn [world].
    unfold pay_settle. rewrite method_of_set_button.
    destruct (App.fetch_result outcome) as [[|r]|e].
    + unfold alert, widget at 1. cbn [page].
      fold (widget j (set_button i (set_label "Try again") (world s))).
      apply method_of_set_button.
    + rewrite method_of_set_button.
      destruct (payment_url r) as [u|]; [destruct (Js.truthy_string u)|];
        reflexivity.
    + unfold alert, widget at 1. cbn [page].
      fold (widget j (set_button i (set_label "Try again") (world s))).
      apply method_of_set_button.
  - cbn [world]. rewrite widget_edit_widget.
    destruct (Nat.eqb i j); [|reflexivity]. now destruct (widget j (world s)).
  - cbn [world]. rewrite widget_edit_widget.
    destruct (Nat.eqb i j); [|reflexivity]. now destruct (widget j (world s)).
Qed.

(** X20.  Whatever the user clicks, types or chooses and however the
    requests settle, the panel keeps one widget per loaded method, in the
    order of the list: the [i]-th pay button always pays with the [i]-th
    method. *)
Theorem widgets_keep_their_methods
  (w : World.t) (methods : list PaymentMethod) (evs : list Event)
  (i : nat) :
  option_map widget_method
    (widget i (world (run (opening w methods) evs)))
  = nth_error methods i.
Proof.
  assert (H0 : option_map widget_method (widget i (world (opening w methods)))
               = nth_error methods i).
  { unfold widget, opening, Render.renderPayments. cbn.
    rewrite card_of_items, nth_error_map.
    now destruct (nth_error methods i). }
  revert H0. generalize (opening w methods). unfold run.
  induction evs as [|ev evs IH]; intros s H0; [exact H0|].
  cbn [fold_left]. apply IH. now rewrite method_of_step.
Qed.



End PanelProperties.

Section LinkButtonProperties.

Import Handlers.

Lemma link_run_invariant (link : string) (evs : list LinkEvent)
  (b : LinkButton) :
  (resets_due b = O -> link_text b = "Copy & open") ->
  (link_text b = "Copied!" \/ link_text b = "Copy & open") ->
  let b' := fold_left (link_step link) evs b in
  link_windows b' = (link_windows b ++ repeat link (clicks evs))%list
  /\ (resets_due b' = O -> link_text b' = "Copy & open")
  /\ (link_text b' = "Copied!" \/ link_text b' = "Copy & open").
Proof.
  revert b; induction evs as [|ev evs IH]; intros b H0 H1; cbn [fold_left].
  - cbn. now rewrite app_nil_r.
  - destruct ev as [clip|].
    + specialize (IH (copy_and_open clip link b)).
      cbn [link_step clicks repeat].
      destruct IH as (I1 & I2 & I3).
      * destruct clip; cbn; try assumption. discriminate.
      * destruct clip; cbn; try assumption. now left.
      * cbv zeta. rewrite I1. split; [|now split].
        destruct clip; cbn; now rewrite <- app_assoc.
    + specialize (IH (reset_runs b)).
      cbn [link_step clicks].
      destruct IH as (I1 & I2 & I3).
      * unfold reset_runs. destruct (resets_due b) eqn:E.
        -- intros _. now apply H0.
        -- reflexivity.
      * unfold reset_runs. destruct (resets_due b) eqn:E;
          [assumption | now right].
      * cbv zeta. rewrite I1. split; [|now split].
        unfold reset_runs. now destruct (resets_due b).
Qed.

(** X22.  A "Copy & open" button opens its link once per click whether
    the clipboard is missing, rejects the write or accepts it; its text
    is only ever "Copied!" or "Copy & open", and once every scheduled
    reset has run it reads "Copy & open" again. *)
Theorem link_button_always_opens (link : string) (evs : list LinkEvent) :
  let b := fold_left (link_step link) evs link_button in
  link_windows b = repeat link (clicks evs)
  /\ (resets_due b = O -> link_text b = "Copy & open")
  /\ (link_text b = "Copied!" \/ link_text b = "Copy & open")
  /\ forall clip,
       link_windows (copy_and_open clip link b)
       = (link_windows b ++ [link])%list
       /\ (clip <> WriteResolves ->
           link_text (copy_and_open clip link b) = link_text b
           /\ clipboard_text (copy_and_open clip link b)
              = clipboard_text b)
       /\ (clip = WriteResolves ->
           link_text (copy_and_open clip link b) = "Copied!"
           /\ clipboard_text (copy_and_open clip link b) = Some link).
Proof.
  destruct (link_run_invariant link evs link_button) as (H1 & H2 & H3).
  - reflexivity.
  - now right.
  - cbv zeta. split; [exact H1|]. split; [exact H2|]. split; [exact H3|].
    intros clip. destruct clip; cbn; repeat split; try congruence;
      intros H; now elim H.
Qed.

End LinkButtonProperties.

(** ** Further properties: from bootstrap to a payment *)

Section EndToEndProperties.

Import Data Page World App Pay.




End EndToEndProperties.
